(** * Griptape driver adapters: OpenAI embedding and Hugging Face Hub prompt

    A shallow embedding of
      - [griptape/drivers/embedding/openai_embedding_driver.py]
      - [griptape/drivers/prompt/hugging_face_hub_prompt_driver.py]
    together with the properties their specification states.

    Both drivers are thin layers over calls into third-party objects (the
    [openai] module, an [InferenceApi] client, a PII processor).  Those
    objects are taken as arbitrary stateful, fallible functions over an
    abstract world; every call the drivers make to them is recorded in a
    trace, so that "which calls were made, in which order, with which
    arguments" is a statement about a value. *)

From Stdlib Require Import ZArith NArith String Ascii List Lia.
From stdpp Require Import base option list gmap fin_maps.

(** ** Python values *)

Module Py.

(** A Python [str] is a sequence of Unicode code points. *)
Abbreviation pystr := (list N).

(** The literal [s] of the source, as code points (source literals are
    ASCII). *)
Definition lit (s : string) : pystr :=
  map N_of_ascii (list_ascii_of_string s).
Arguments lit s%_string.

#[local] Set Warnings "-register-all".

(** The values that travel through the drivers: JSON-like data.  A [float]
    is carried by its IEEE-754 binary64 bit pattern; the drivers never
    compute with one. *)
Inductive pyobj : Type :=
| VNone
| VBool (b : bool)
| VInt (z : Z)
| VFloat (bits : N)
| VStr (s : pystr)
| VList (l : list pyobj)
| VDict (d : gmap pystr pyobj).

(** Optional[str] fields seen as values. *)
Definition of_opt (o : option pystr) : pyobj :=
  match o with Some s => VStr s | None => VNone end.

(** Exceptions, by class.  Those the drivers raise carry their message;
    those the interpreter raises ([TypeError], [AttributeError],
    [IndexError]) are kept without their text; [OtherError] stands for
    the classes of the libraries behind the drivers. *)
Inductive exn : Type :=
| Exception (msg : pystr)
| ValueError (msg : pystr)
| NotImplementedError (msg : pystr)
| TypeError
| AttributeError
| IndexError
| KeyError (key : pyobj)
| OtherError (cls msg : pystr).

(** The outcome of a call: a returned value or a raised exception. *)
Inductive result (A : Type) : Type :=
| Ok (a : A)
| Raise (e : exn).
Arguments Ok {A} a.
Arguments Raise {A} e.

(** *** [str] methods *)

(** [str.isspace] on one code point: the code points CPython's
    [_PyUnicode_IsWhitespace] accepts. *)
Definition isspace (c : N) : bool :=
  ((9 <=? c) && (c <=? 13) || (28 <=? c) && (c <=? 32)
   || (c =? 133) || (c =? 160) || (c =? 5760)
   || (8192 <=? c) && (c <=? 8202)
   || (c =? 8232) || (c =? 8233) || (c =? 8239) || (c =? 8287)
   || (c =? 12288))%N.

Fixpoint lstrip (s : pystr) : pystr :=
  match s with
  | c :: s' => if isspace c then lstrip s' else s
  | [] => []
  end.

Definition rstrip (s : pystr) : pystr := rev (lstrip (rev s)).

(** [s.strip()] with no argument. *)
Definition strip (s : pystr) : pystr := rstrip (lstrip s).

Definition startswith (s pre : pystr) : bool :=
  bool_decide (take (length pre) s = pre).

(** [s.endswith(suf)]: the last [len(suf)] code points of [s] are [suf]. *)
Definition endswith (s suf : pystr) : bool :=
  bool_decide (length suf <= length s)
  && bool_decide (drop (length s - length suf) s = suf).

(** [s.replace(old, new)] for a non-empty [old]: a left-to-right scan that
    replaces each occurrence and resumes after it; [skip] counts the code
    points of the occurrence still to be passed over. *)
Fixpoint replace_from (old new : pystr) (skip : nat) (s : pystr) : pystr :=
  match s with
  | [] => []
  | c :: s' =>
      match skip with
      | S k => replace_from old new k s'
      | O =>
          if startswith s old
          then new ++ replace_from old new (length old - 1) s'
          else c :: replace_from old new 0 s'
      end
  end.

(** [s.replace(old, new)]; an empty [old] matches before every code point
    and at the end. *)
Definition replace (s old new : pystr) : pystr :=
  match old with
  | [] => new ++ flat_map (fun c => c :: new) s
  | _ :: _ => replace_from old new 0 s
  end.

(** *** Operations on values *)

(** [len(v)]. *)
Definition len (v : pyobj) : result nat :=
  match v with
  | VStr s => Ok (length s)
  | VList l => Ok (length l)
  | VDict d => Ok (size d)
  | _ => Raise TypeError
  end.

(** Position [i] of a sequence of length [n], Python style: a negative
    index counts from the end. *)
Definition index_of (n : nat) (i : Z) : option nat :=
  if (0 <=? i)%Z then (if (i <? Z.of_nat n)%Z then Some (Z.to_nat i) else None)
  else if (0 <=? i + Z.of_nat n)%Z then Some (Z.to_nat (i + Z.of_nat n))
  else None.

(** [v[i]] for an integer [i].  Dictionaries here have [str] keys, so an
    integer key is never present. *)
Definition getitem_int (v : pyobj) (i : Z) : result pyobj :=
  match v with
  | VList l =>
      match index_of (length l) i ≫= (l !!.) with
      | Some x => Ok x
      | None => Raise IndexError
      end
  | VStr s =>
      match index_of (length s) i ≫= (s !!.) with
      | Some c => Ok (VStr [c])
      | None => Raise IndexError
      end
  | VDict _ => Raise (KeyError (VInt i))
  | _ => Raise TypeError
  end.

(** [v[k]] for a [str] key [k]. *)
Definition getitem_str (v : pyobj) (k : pystr) : result pyobj :=
  match v with
  | VDict d =>
      match d !! k with
      | Some x => Ok x
      | None => Raise (KeyError (VStr k))
      end
  | _ => Raise TypeError
  end.

(** [v.strip()]: only a [str] has the method. *)
Definition strip_method (v : pyobj) : result pystr :=
  match v with
  | VStr s => Ok (strip s)
  | _ => Raise AttributeError
  end.

(** [d1 | d2]: the entries of [d1] overridden and extended by those of
    [d2]. *)
Definition dict_or (d1 d2 : gmap pystr pyobj) : gmap pystr pyobj := d2 ∪ d1.

(** ** Calls with effects

    A computation over a state [S] that returns or raises. *)
Definition M (S A : Type) : Type := S -> result A * S.

Definition ret {S A} (a : A) : M S A := fun st => (Ok a, st).

Definition raise {S A} (e : exn) : M S A := fun st => (Raise e, st).

Definition bind {S A B} (m : M S A) (k : A -> M S B) : M S B :=
  fun st =>
    match m st with
    | (Ok a, st') => k a st'
    | (Raise e, st') => (Raise e, st')
    end.

(** A pure operation that may raise. *)
Definition lift {S A} (r : result A) : M S A := fun st => (r, st).

End Py.

Import Py.

Notation "'let*' x ':=' m 'in' k" := (bind m (fun x => k))
  (at level 10, x name, m at level 100, k at level 200).

(** ** [OpenAiEmbeddingDriver] *)

Module OpenAiEmbedding.

(** The attributes of the [openai] module that the driver reads and
    assigns. *)
Record openai_module : Type := {
  openai_api_type : pystr;
  openai_api_version : option pystr;
  openai_api_base : pystr;
  openai_api_key : option pystr;
  openai_organization : option pystr
}.

Definition set_api_type (v : pystr) (o : openai_module) : openai_module :=
  {| openai_api_type := v;
     openai_api_version := openai_api_version o;
     openai_api_base := openai_api_base o;
     openai_api_key := openai_api_key o;
     openai_organization := openai_organization o |}.

Definition set_api_version (v : option pystr) (o : openai_module)
  : openai_module :=
  {| openai_api_type := openai_api_type o;
     openai_api_version := v;
     openai_api_base := openai_api_base o;
     openai_api_key := openai_api_key o;
     openai_organization := openai_organization o |}.

Definition set_api_base (v : pystr) (o : openai_module) : openai_module :=
  {| openai_api_type := openai_api_type o;
     openai_api_version := openai_api_version o;
     openai_api_base := v;
     openai_api_key := openai_api_key o;
     openai_organization := openai_organization o |}.

Definition set_api_key (v : option pystr) (o : openai_module)
  : openai_module :=
  {| openai_api_type := openai_api_type o;
     openai_api_version := openai_api_version o;
     openai_api_base := openai_api_base o;
     openai_api_key := v;
     openai_organization := openai_organization o |}.

Definition set_organization (v : option pystr) (o : openai_module)
  : openai_module :=
  {| openai_api_type := openai_api_type o;
     openai_api_version := openai_api_version o;
     openai_api_base := openai_api_base o;
     openai_api_key := openai_api_key o;
     openai_organization := v |}.

(** Calls that leave the driver. *)
Inductive event (Tokenizer : Type) : Type :=
| EvTokenizerNew (model : pystr)
| EvEmbeddingCreate (kwargs : gmap pystr pyobj).
Arguments EvTokenizerNew {Tokenizer} model.
Arguments EvEmbeddingCreate {Tokenizer} kwargs.

Section Driver.

(** What lies behind the [openai] client, and [OpenAiTokenizer]. *)
Context {W Tokenizer : Type}.

(** The process: the [openai] module's attributes, [os.environ], the calls
    made so far, and the world behind the API. *)
Record state : Type := {
  openai : openai_module;
  environ : gmap pystr pystr;
  trace : list (event Tokenizer);
  world : W
}.

(** [openai.Embedding.create], called with keyword arguments; it sees the
    module's attributes. *)
Variable Embedding_create :
  gmap pystr pyobj -> openai_module -> W -> result pyobj * W.

(** [OpenAiTokenizer(model=...)]. *)
Variable OpenAiTokenizer_new : pystr -> W -> result Tokenizer * W.

(** The [openai] module's attributes when the class body was evaluated:
    the defaults of the fields. *)
Variable openai_at_import : openai_module.

Definition call {A} (ev : event Tokenizer) (f : W -> result A * W)
  : M state A :=
  fun st =>
    let (r, w) := f (world st) in
    (r, {| openai := openai st; environ := environ st;
           trace := trace st ++ [ev]; world := w |}).

(** An assignment to attributes of the [openai] module. *)
Definition assign (f : openai_module -> openai_module) : M state unit :=
  fun st =>
    (Ok tt, {| openai := f (openai st); environ := environ st;
               trace := trace st; world := world st |}).

Definition environ_get (k : pystr) : M state (option pystr) :=
  fun st => (Ok (environ st !! k), st).

Record OpenAiEmbeddingDriver : Type := {
  model : pystr;
  dimensions : Z;
  api_type : pystr;
  api_version : option pystr;
  api_base : pystr;
  api_key : option pystr;
  organization : option pystr;
  tokenizer : Tokenizer
}.

Definition DEFAULT_MODEL : pystr := lit "text-embedding-ada-002".
Definition DEFAULT_DIMENSIONS : Z := 1536.

Definition __attrs_post_init__ (self : OpenAiEmbeddingDriver) : M state unit :=
  let* _ := assign (set_api_type (api_type self)) in
  let* _ := assign (set_api_version (api_version self)) in
  let* _ := assign (set_api_base (api_base self)) in
  let* _ := assign (set_api_key (api_key self)) in
  assign (set_organization (organization self)).

(** The keyword arguments of the constructor; [None] is an argument left
    out. *)
Record kwargs : Type := {
  kw_model : option pystr;
  kw_dimensions : option Z;
  kw_api_type : option pystr;
  kw_api_version : option (option pystr);
  kw_api_base : option pystr;
  kw_api_key : option (option pystr);
  kw_organization : option (option pystr);
  kw_tokenizer : option Tokenizer
}.

(** The [__init__] that [attrs] generates from the field declarations:
    each field from its argument or its default, in declaration order, then
    [__attrs_post_init__].  (Fields inherited from [BaseEmbeddingDriver]
    are outside this model.) *)
Definition __init__ (kw : kwargs) : M state OpenAiEmbeddingDriver :=
  let model := default DEFAULT_MODEL (kw_model kw) in
  let dimensions := default DEFAULT_DIMENSIONS (kw_dimensions kw) in
  let api_type := default (openai_api_type openai_at_import) (kw_api_type kw) in
  let api_version :=
    default (openai_api_version openai_at_import) (kw_api_version kw) in
  let api_base := default (openai_api_base openai_at_import) (kw_api_base kw) in
  let* api_key :=
    match kw_api_key kw with
    | Some k => ret k
    | None => environ_get (lit "OPENAI_API_KEY")
    end in
  let organization :=
    default (openai_organization openai_at_import) (kw_organization kw) in
  let* tokenizer :=
    match kw_tokenizer kw with
    | Some t => ret t
    | None => call (EvTokenizerNew model) (OpenAiTokenizer_new model)
    end in
  let self :=
    {| model := model; dimensions := dimensions; api_type := api_type;
       api_version := api_version; api_base := api_base; api_key := api_key;
       organization := organization; tokenizer := tokenizer |} in
  let* _ := __attrs_post_init__ self in
  ret self.

Definition _params (self : OpenAiEmbeddingDriver) (chunk : pystr)
  : gmap pystr pyobj :=
  {[ lit "input" := VStr chunk;
     lit "model" := VStr (model self);
     lit "api_key" := of_opt (api_key self);
     lit "organization" := of_opt (organization self);
     lit "api_version" := of_opt (api_version self);
     lit "api_base" := VStr (api_base self);
     lit "api_type" := VStr (api_type self) ]}.

(** The one-character strings of line 57: a line feed and a space. *)
Definition newline : pystr := [10%N].
Definition space : pystr := [32%N].

Definition try_embed_chunk (self : OpenAiEmbeddingDriver) (chunk : pystr)
  : M state pyobj :=
  let chunk :=
    if endswith (model self) (lit "001")
    then replace chunk newline space
    else chunk in
  let* response :=
    (fun st =>
       call (EvEmbeddingCreate (_params self chunk))
            (Embedding_create (_params self chunk) (openai st)) st) in
  let* data := lift (getitem_str response (lit "data")) in
  let* first := lift (getitem_int data 0) in
  lift (getitem_str first (lit "embedding")).

End Driver.

Arguments state : clear implicits.
Arguments OpenAiEmbeddingDriver : clear implicits.
Arguments kwargs : clear implicits.

End OpenAiEmbedding.

(** ** [HuggingFaceHubPromptDriver] *)

Module HuggingFaceHub.

(** [griptape.artifacts.TextArtifact]: a wrapper around the generated
    text. *)
Record TextArtifact : Type := { value : pystr }.

Section Driver.

(** What lies behind the inference client and the processors; the
    caller's [PromptStack], which the driver hands on without looking
    inside; [HuggingFaceTokenizer]. *)
Context {W PromptStack Tokenizer : Type}.

(** [huggingface_hub.InferenceApi]: its [task] attribute and its call,
    [client(inputs=..., params=...)]. *)
Record InferenceApi : Type := {
  task : pystr;
  client_call : pystr -> gmap pystr pyobj -> W -> result pyobj * W
}.

(** [BasePromptStackProcessor]: the two redaction hooks. *)
Record BasePromptStackProcessor : Type := {
  before_run : PromptStack -> W -> result PromptStack * W;
  after_run : pyobj -> W -> result pyobj * W
}.

(** The fields of the class, and [prompt_stack_to_string], which it
    inherits from [BasePromptDriver]. *)
Record HuggingFaceHubPromptDriver : Type := {
  api_token : pystr;
  use_gpu : bool;
  params : gmap pystr pyobj;
  model : pystr;
  client : InferenceApi;
  tokenizer : Tokenizer;
  pii_processor : BasePromptStackProcessor;
  stream : bool;
  prompt_stack_to_string : PromptStack -> W -> result pystr * W
}.

(** Calls that leave the driver. *)
Inductive event : Type :=
| EvInferenceApiNew (repo_id token : pystr) (gpu : bool)
| EvTokenizerNew (model : pystr) (max_tokens : Z)
| EvBeforeRun (prompt_stack : PromptStack)
| EvPromptStackToString (prompt_stack : PromptStack)
| EvClient (inputs : pystr) (params : gmap pystr pyobj)
| EvAfterRun (response : pyobj).

Record state : Type := {
  trace : list event;
  world : W
}.

Definition call {A} (ev : event) (f : W -> result A * W) : M state A :=
  fun st =>
    let (r, w) := f (world st) in
    (r, {| trace := trace st ++ [ev]; world := w |}).

Definition SUPPORTED_TASKS : list pystr :=
  [lit "text2text-generation"; lit "text-generation"].
Definition MAX_NEW_TOKENS : Z := 250.
Definition DEFAULT_PARAMS : gmap pystr pyobj :=
  {[ lit "return_full_text" := VBool false;
     lit "max_new_tokens" := VInt MAX_NEW_TOKENS ]}.

Definition validate_stream (self : HuggingFaceHubPromptDriver)
    (stream : bool) : M state unit :=
  if stream then raise (ValueError (lit "streaming is not supported"))
  else ret tt.

(** The message of line 81: the f-string with the list's [repr] written
    out. *)
Definition unsupported_task_message : pystr :=
  lit "only models with the following tasks are supported: ['text2text-generation', 'text-generation']".

Definition try_run (self : HuggingFaceHubPromptDriver)
    (prompt_stack : PromptStack) : M state TextArtifact :=
  let* processed_prompt_stack :=
    call (EvBeforeRun prompt_stack)
         (before_run (pii_processor self) prompt_stack) in
  let* prompt :=
    call (EvPromptStackToString processed_prompt_stack)
         (prompt_stack_to_string self processed_prompt_stack) in
  if bool_decide (task (client self) ∈ SUPPORTED_TASKS) then
    let params := dict_or DEFAULT_PARAMS (params self) in
    let* response :=
      call (EvClient prompt params) (client_call (client self) prompt params) in
    let* processed_response :=
      call (EvAfterRun response) (after_run (pii_processor self) response) in
    let* n := lift (len processed_response) in
    if (n =? 1)%nat then
      let* choice := lift (getitem_int processed_response 0) in
      let* generated_text := lift (getitem_str choice (lit "generated_text")) in
      let* text := lift (strip_method generated_text) in
      ret {| value := text |}
    else
      raise (Exception
               (lit "completion with more than one choice is not supported yet"))
  else
    raise (Exception unsupported_task_message).

Definition try_stream (self : HuggingFaceHubPromptDriver) (_ : PromptStack)
  : M state (list TextArtifact) :=
  raise (NotImplementedError (lit "streaming is not supported")).


Definition is_client_call (ev : event) : bool :=
  match ev with
  | EvClient _ _ => true
  | _ => false
  end.

Definition is_before_run_call (ev : event) : bool :=
  match ev with
  | EvBeforeRun _ => true
  | _ => false
  end.

Definition is_after_run_call (ev : event) : bool :=
  match ev with
  | EvAfterRun _ => true
  | _ => false
  end.

(** The world after the call that the entry [ev] of a trace of [try_run]
    stands for, made from the world [w]. *)
Definition perform (self : HuggingFaceHubPromptDriver) (w : W) (ev : event)
  : W :=
  match ev with
  | EvBeforeRun prompt_stack =>
      (before_run (pii_processor self) prompt_stack w).2
  | EvPromptStackToString prompt_stack =>
      (prompt_stack_to_string self prompt_stack w).2
  | EvClient inputs params => (client_call (client self) inputs params w).2
  | EvAfterRun response => (after_run (pii_processor self) response w).2
  | EvInferenceApiNew _ _ _ | EvTokenizerNew _ _ => w
  end.

(** The parameters [try_run] passes to the client. *)
Definition run_params (self : HuggingFaceHubPromptDriver)
  : gmap pystr pyobj :=
  dict_or DEFAULT_PARAMS (params self).

(** The normal course of a run from the world [w]: the pre-call hook
    returns [processed_stack], the converter returns [prompt], the client
    returns [response], the post-call hook returns [processed] and leaves
    the world [w']. *)
Inductive calls_return (self : HuggingFaceHubPromptDriver)
    (prompt_stack : PromptStack) (w : W)
    (processed_stack : PromptStack) (prompt : pystr)
    (response processed : pyobj) (w' : W) : Prop :=
| CallsReturn (w_before w_string w_client : W) :
    before_run (pii_processor self) prompt_stack w
      = (Ok processed_stack, w_before) ->
    prompt_stack_to_string self processed_stack w_before
      = (Ok prompt, w_string) ->
    client_call (client self) prompt (run_params self) w_string
      = (Ok response, w_client) ->
    after_run (pii_processor self) response w_client = (Ok processed, w') ->
    calls_return self prompt_stack w processed_stack prompt response
      processed w'.

(** *** Construction *)

(** [InferenceApi(repo_id=..., token=..., gpu=...)] and
    [HuggingFaceTokenizer(tokenizer=AutoTokenizer.from_pretrained(model),
    max_tokens=...)]. *)
Variable InferenceApi_new : pystr -> pystr -> bool -> W -> result InferenceApi * W.
Variable HuggingFaceTokenizer_new : pystr -> Z -> W -> result Tokenizer * W.

(** The [AmazonComprehendPiiProcessor()] made when the class body was
    evaluated, and the converter [BasePromptDriver] supplies. *)
Variable default_pii_processor : BasePromptStackProcessor.
Variable default_prompt_stack_to_string : PromptStack -> W -> result pystr * W.

(** The keyword arguments of the constructor; [None] is an argument left
    out. *)
Record kwargs : Type := {
  kw_api_token : option pystr;
  kw_use_gpu : option bool;
  kw_params : option (gmap pystr pyobj);
  kw_model : option pystr;
  kw_client : option InferenceApi;
  kw_tokenizer : option Tokenizer;
  kw_pii_processor : option BasePromptStackProcessor;
  kw_stream : option bool;
  kw_prompt_stack_to_string : option (PromptStack -> W -> result pystr * W)
}.

(** An argument without a default: leaving it out is a [TypeError]. *)
Definition required {A} (o : option A) : M state A :=
  match o with
  | Some a => ret a
  | None => raise TypeError
  end.

(** The [__init__] that [attrs] generates from the field declarations:
    arguments without a default are required; each field is set from its
    argument or its default (a [Factory] is called at that point), in
    declaration order; the validators run once all fields are set.
    (The other fields of [BasePromptDriver] are outside this model.) *)
Definition __init__ (kw : kwargs) : M state HuggingFaceHubPromptDriver :=
  let* api_token := required (kw_api_token kw) in
  let* model := required (kw_model kw) in
  let prompt_stack_to_string :=
    default default_prompt_stack_to_string (kw_prompt_stack_to_string kw) in
  let use_gpu := default false (kw_use_gpu kw) in
  let params := default ∅ (kw_params kw) in
  let* client :=
    match kw_client kw with
    | Some c => ret c
    | None =>
        call (EvInferenceApiNew model api_token use_gpu)
             (InferenceApi_new model api_token use_gpu)
    end in
  let* tokenizer :=
    match kw_tokenizer kw with
    | Some t => ret t
    | None =>
        call (EvTokenizerNew model MAX_NEW_TOKENS)
             (HuggingFaceTokenizer_new model MAX_NEW_TOKENS)
    end in
  let pii_processor := default default_pii_processor (kw_pii_processor kw) in
  let stream := default false (kw_stream kw) in
  let self :=
    {| api_token := api_token; use_gpu := use_gpu; params := params;
       model := model; client := client; tokenizer := tokenizer;
       pii_processor := pii_processor; stream := stream;
       prompt_stack_to_string := prompt_stack_to_string |} in
  let* _ := validate_stream self stream in
  ret self.

End Driver.

Arguments InferenceApi : clear implicits.
Arguments BasePromptStackProcessor : clear implicits.
Arguments HuggingFaceHubPromptDriver : clear implicits.
Arguments event : clear implicits.
Arguments state : clear implicits.
Arguments kwargs : clear implicits.

End HuggingFaceHub.

(** ** A concrete process, to run the drivers on

    A world that counts the calls it has served; an embedding endpoint that
    answers every request with one two-dimensional vector. *)

Module Demo.

Definition embedding_response : pyobj :=
  VDict {[ lit "data" :=
             VList [VDict {[ lit "embedding" := VList [VFloat 0; VFloat 1];
                             lit "index" := VInt 0 ]}] ]}.

Definition Embedding_create (kwargs : gmap pystr pyobj)
    (o : OpenAiEmbedding.openai_module) (w : nat) : result pyobj * nat :=
  (Ok embedding_response, S w).

Definition OpenAiTokenizer_new (model : pystr) (w : nat) : result unit * nat :=
  (Ok tt, S w).

Definition openai_defaults : OpenAiEmbedding.openai_module :=
  {| OpenAiEmbedding.openai_api_type := lit "open_ai";
     OpenAiEmbedding.openai_api_version := None;
     OpenAiEmbedding.openai_api_base := lit "https://api.openai.com/v1";
     OpenAiEmbedding.openai_api_key := None;
     OpenAiEmbedding.openai_organization := None |}.

Definition openai_state : OpenAiEmbedding.state nat unit :=
  {| OpenAiEmbedding.openai := openai_defaults;
     OpenAiEmbedding.environ := {[ lit "OPENAI_API_KEY" := lit "sk-env" ]};
     OpenAiEmbedding.trace := [];
     OpenAiEmbedding.world := 0 |}.

(** A driver for a legacy model, on Azure. *)
Definition legacy_driver : OpenAiEmbedding.OpenAiEmbeddingDriver unit :=
  {| OpenAiEmbedding.model := lit "text-search-ada-doc-001";
     OpenAiEmbedding.dimensions := 1024;
     OpenAiEmbedding.api_type := lit "azure";
     OpenAiEmbedding.api_version := Some (lit "2023-05-15");
     OpenAiEmbedding.api_base := lit "https://example.openai.azure.com";
     OpenAiEmbedding.api_key := Some (lit "sk-arg");
     OpenAiEmbedding.organization := None;
     OpenAiEmbedding.tokenizer := tt |}.

Definition legacy_kwargs : OpenAiEmbedding.kwargs unit :=
  {| OpenAiEmbedding.kw_model := Some (lit "text-search-ada-doc-001");
     OpenAiEmbedding.kw_dimensions := Some 1024%Z;
     OpenAiEmbedding.kw_api_type := Some (lit "azure");
     OpenAiEmbedding.kw_api_version := Some (Some (lit "2023-05-15"));
     OpenAiEmbedding.kw_api_base := Some (lit "https://example.openai.azure.com");
     OpenAiEmbedding.kw_api_key := Some (Some (lit "sk-arg"));
     OpenAiEmbedding.kw_organization := None;
     OpenAiEmbedding.kw_tokenizer := None |}.

(** "a", line feed, "b". *)
Definition two_lines : pystr := [97; 10; 98]%N.

(** A driver for the default model, and an endpoint that is down. *)
Definition default_driver : OpenAiEmbedding.OpenAiEmbeddingDriver unit :=
  {| OpenAiEmbedding.model := OpenAiEmbedding.DEFAULT_MODEL;
     OpenAiEmbedding.dimensions := OpenAiEmbedding.DEFAULT_DIMENSIONS;
     OpenAiEmbedding.api_type := lit "open_ai";
     OpenAiEmbedding.api_version := None;
     OpenAiEmbedding.api_base := lit "https://api.openai.com/v1";
     OpenAiEmbedding.api_key := Some (lit "sk-env");
     OpenAiEmbedding.organization := None;
     OpenAiEmbedding.tokenizer := tt |}.

Definition connection_error : exn :=
  OtherError (lit "APIConnectionError") (lit "connection refused").


(** Prompt stacks as lists of (role, content); a processor that masks
    nothing; a converter that joins the contents; inference clients that
    answer with a given number of choices, each the prompt between
    blanks. *)
Definition stack : Type := list (pystr * pystr).

Definition processor : HuggingFaceHub.BasePromptStackProcessor nat stack :=
  {| HuggingFaceHub.before_run := fun ps w => (Ok ps, S w);
     HuggingFaceHub.after_run := fun r w => (Ok r, S w) |}.

Definition join_contents (ps : stack) (w : nat) : result pystr * nat :=
  (Ok (concat (snd <$> ps)), w).

Definition choice (prompt : pystr) : pyobj :=
  VDict {[ lit "generated_text" := VStr ([32; 9] ++ prompt ++ [10])%N ]}.

Definition inference_client (task : pystr) (choices : nat)
  : HuggingFaceHub.InferenceApi nat :=
  {| HuggingFaceHub.task := task;
     HuggingFaceHub.client_call := fun prompt params w =>
       (Ok (VList (replicate choices (choice prompt))), S w) |}.

Definition hub_driver (task : pystr) (choices : nat)
  : HuggingFaceHub.HuggingFaceHubPromptDriver nat stack unit :=
  {| HuggingFaceHub.api_token := lit "hf_token";
     HuggingFaceHub.use_gpu := false;
     HuggingFaceHub.params := {[ lit "max_new_tokens" := VInt 10;
                                 lit "temperature" := VFloat 0 ]};
     HuggingFaceHub.model := lit "gpt2";
     HuggingFaceHub.client := inference_client task choices;
     HuggingFaceHub.tokenizer := tt;
     HuggingFaceHub.pii_processor := processor;
     HuggingFaceHub.stream := false;
     HuggingFaceHub.prompt_stack_to_string := join_contents |}.

Definition hello : stack := [(lit "user", lit "hi")].

Definition hub_state : HuggingFaceHub.state nat stack :=
  {| HuggingFaceHub.trace := []; HuggingFaceHub.world := 0 |}.

Definition InferenceApi_new (repo_id token : pystr) (gpu : bool) (w : nat)
  : result (HuggingFaceHub.InferenceApi nat) * nat :=
  (Ok (inference_client (lit "text-generation") 1), S w).

Definition HuggingFaceTokenizer_new (model : pystr) (max_tokens : Z) (w : nat)
  : result unit * nat :=
  (Ok tt, S w).

Definition streaming_kwargs : HuggingFaceHub.kwargs nat stack unit :=
  {| HuggingFaceHub.kw_api_token := Some (lit "hf_token");
     HuggingFaceHub.kw_use_gpu := None;
     HuggingFaceHub.kw_params := None;
     HuggingFaceHub.kw_model := Some (lit "gpt2");
     HuggingFaceHub.kw_client := None;
     HuggingFaceHub.kw_tokenizer := None;
     HuggingFaceHub.kw_pii_processor := None;
     HuggingFaceHub.kw_stream := Some true;
     HuggingFaceHub.kw_prompt_stack_to_string := None |}.

(** The same, with a client and a tokenizer passed. *)
Definition streaming_kwargs_full : HuggingFaceHub.kwargs nat stack unit :=
  {| HuggingFaceHub.kw_api_token := Some (lit "hf_token");
     HuggingFaceHub.kw_use_gpu := Some true;
     HuggingFaceHub.kw_params := None;
     HuggingFaceHub.kw_model := Some (lit "gpt2");
     HuggingFaceHub.kw_client :=
       Some (inference_client (lit "text-generation") 1);
     HuggingFaceHub.kw_tokenizer := Some tt;
     HuggingFaceHub.kw_pii_processor := Some processor;
     HuggingFaceHub.kw_stream := Some true;
     HuggingFaceHub.kw_prompt_stack_to_string := None |}.

(** *** Endpoints, factories and hooks that misbehave *)

(** An embedding endpoint that answers with a given response. *)
Definition Embedding_create_with (response : pyobj)
    (kwargs : gmap pystr pyobj) (o : OpenAiEmbedding.openai_module) (w : nat)
  : result pyobj * nat :=
  (Ok response, S w).

Definition no_data : pyobj := VDict {[ lit "object" := VStr (lit "list") ]}.
Definition empty_data : pyobj := VDict {[ lit "data" := VList [] ]}.
Definition no_embedding : pyobj :=
  VDict {[ lit "data" := VList [VDict {[ lit "index" := VInt 0 ]}] ]}.

Definition model_not_found : exn :=
  OtherError (lit "OSError") (lit "model not found").

Definition OpenAiTokenizer_new_failing (model : pystr) (w : nat)
  : result unit * nat :=
  (Raise model_not_found, S w).

Definition InferenceApi_new_failing (repo_id token : pystr) (gpu : bool)
    (w : nat) : result (HuggingFaceHub.InferenceApi nat) * nat :=
  (Raise model_not_found, S w).

Definition throttled : exn :=
  OtherError (lit "ClientError") (lit "ThrottlingException").

(** Processors whose pre-call hook, respectively post-call hook, raises. *)
Definition processor_before_fails
  : HuggingFaceHub.BasePromptStackProcessor nat stack :=
  {| HuggingFaceHub.before_run := fun ps w => (Raise throttled, S w);
     HuggingFaceHub.after_run := fun r w => (Ok r, S w) |}.

Definition processor_after_fails
  : HuggingFaceHub.BasePromptStackProcessor nat stack :=
  {| HuggingFaceHub.before_run := fun ps w => (Ok ps, S w);
     HuggingFaceHub.after_run := fun r w => (Raise throttled, S w) |}.

Definition converter_fails (ps : stack) (w : nat) : result pystr * nat :=
  (Raise (ValueError (lit "empty prompt stack")), w).

(** A client that answers with a given response, and one that is down. *)
Definition client_answering (response : pyobj)
  : HuggingFaceHub.InferenceApi nat :=
  {| HuggingFaceHub.task := lit "text2text-generation";
     HuggingFaceHub.client_call := fun prompt params w => (Ok response, S w) |}.

Definition client_down : HuggingFaceHub.InferenceApi nat :=
  {| HuggingFaceHub.task := lit "text-generation";
     HuggingFaceHub.client_call := fun prompt params w =>
       (Raise connection_error, S w) |}.

Definition hub_driver_of (c : HuggingFaceHub.InferenceApi nat)
    (p : HuggingFaceHub.BasePromptStackProcessor nat stack)
    (conv : stack -> nat -> result pystr * nat)
    (user_params : gmap pystr pyobj)
  : HuggingFaceHub.HuggingFaceHubPromptDriver nat stack unit :=
  {| HuggingFaceHub.api_token := lit "hf_token";
     HuggingFaceHub.use_gpu := false;
     HuggingFaceHub.params := user_params;
     HuggingFaceHub.model := lit "gpt2";
     HuggingFaceHub.client := c;
     HuggingFaceHub.tokenizer := tt;
     HuggingFaceHub.pii_processor := p;
     HuggingFaceHub.stream := false;
     HuggingFaceHub.prompt_stack_to_string := conv |}.

(** The payload the inference API sends while a model loads. *)
Definition loading_payload : pyobj :=
  VDict {[ lit "error" := VStr (lit "Model gpt2 is currently loading") ]}.

Definition plain_kwargs : HuggingFaceHub.kwargs nat stack unit :=
  {| HuggingFaceHub.kw_api_token := Some (lit "hf_token");
     HuggingFaceHub.kw_use_gpu := Some true;
     HuggingFaceHub.kw_params := None;
     HuggingFaceHub.kw_model := Some (lit "gpt2");
     HuggingFaceHub.kw_client := None;
     HuggingFaceHub.kw_tokenizer := None;
     HuggingFaceHub.kw_pii_processor := None;
     HuggingFaceHub.kw_stream := None;
     HuggingFaceHub.kw_prompt_stack_to_string := None |}.

Definition no_token_kwargs : HuggingFaceHub.kwargs nat stack unit :=
  {| HuggingFaceHub.kw_api_token := None;
     HuggingFaceHub.kw_use_gpu := None;
     HuggingFaceHub.kw_params := None;
     HuggingFaceHub.kw_model := Some (lit "gpt2");
     HuggingFaceHub.kw_client := None;
     HuggingFaceHub.kw_tokenizer := None;
     HuggingFaceHub.kw_pii_processor := None;
     HuggingFaceHub.kw_stream := Some true;
     HuggingFaceHub.kw_prompt_stack_to_string := None |}.

Definition passed_kwargs : HuggingFaceHub.kwargs nat stack unit :=
  {| HuggingFaceHub.kw_api_token := Some (lit "hf_token");
     HuggingFaceHub.kw_use_gpu := None;
     HuggingFaceHub.kw_params := None;
     HuggingFaceHub.kw_model := Some (lit "gpt2");
     HuggingFaceHub.kw_client := Some client_down;
     HuggingFaceHub.kw_tokenizer := Some tt;
     HuggingFaceHub.kw_pii_processor := None;
     HuggingFaceHub.kw_stream := Some false;
     HuggingFaceHub.kw_prompt_stack_to_string := None |}.

(** Keyword arguments of the embedding driver: nothing but a tokenizer,
    and nothing at all. *)
Definition tokenizer_kwargs : OpenAiEmbedding.kwargs unit :=
  {| OpenAiEmbedding.kw_model := None;
     OpenAiEmbedding.kw_dimensions := None;
     OpenAiEmbedding.kw_api_type := None;
     OpenAiEmbedding.kw_api_version := None;
     OpenAiEmbedding.kw_api_base := None;
     OpenAiEmbedding.kw_api_key := None;
     OpenAiEmbedding.kw_organization := None;
     OpenAiEmbedding.kw_tokenizer := Some tt |}.

End Demo.

(** * Properties *)

(** ** [str] methods *)

Section StrFacts.

Implicit Types s old new suf : pystr.

Lemma endswith_suffix s suf : endswith s suf = true <-> suf `suffix_of` s.
Proof.
  unfold endswith. rewrite andb_true_iff, !bool_decide_eq_true. split.
  - intros [_ <-]. apply suffix_drop.
  - intros [pre ->]. rewrite length_app. split; [lia|].
    replace (length pre + length suf - length suf) with (length pre) by lia.
    by rewrite drop_app_length.
Qed.

Lemma endswith_not_suffix s suf :
  endswith s suf = false <-> ¬ suf `suffix_of` s.
Proof.
  rewrite <- endswith_suffix. destruct (endswith s suf); naive_solver.
Qed.

(** Replacing a one-character string by a one-character string rewrites
    [s] position by position. *)
Lemma replace_char s (a b : N) :
  replace s [a] [b] = (fun c => if (c =? a)%N then b else c) <$> s.
Proof.
  simpl. induction s as [|c s IH]; [done|].
  simpl. unfold startswith. simpl.
  destruct (N.eqb_spec c a) as [->|Hne].
  - rewrite bool_decide_eq_true_2 by done. simpl. by rewrite IH.
  - rewrite bool_decide_eq_false_2 by congruence. by rewrite IH.
Qed.

Lemma lstrip_split s :
  exists pre, s = pre ++ lstrip s /\ forallb isspace pre = true.
Proof.
  induction s as [|c s (pre & Hs & Hpre)]; [by exists []|].
  simpl. destruct (isspace c) eqn:Hc.
  - exists (c :: pre). simpl. rewrite Hc, Hpre. by rewrite Hs at 1.
  - by exists [].
Qed.

Lemma lstrip_head s c : head (lstrip s) = Some c -> isspace c = false.
Proof.
  induction s as [|d s IH]; [done|].
  simpl. destruct (isspace d) eqn:Hd; [done|].
  simpl. congruence.
Qed.

Lemma lstrip_idem s : lstrip (lstrip s) = lstrip s.
Proof.
  induction s as [|d s IH]; [done|].
  simpl. destruct (isspace d) eqn:Hd; [done|]. simpl. by rewrite Hd.
Qed.

Lemma rstrip_split s :
  exists post, s = rstrip s ++ post /\ forallb isspace post = true.
Proof.
  unfold rstrip. destruct (lstrip_split (rev s)) as (pre & Hs & Hpre).
  exists (rev pre). split.
  - rewrite <- rev_app_distr, <- Hs. by rewrite rev_involutive.
  - rewrite forallb_forall in *. intros x Hx. apply Hpre. by apply in_rev.
Qed.

Lemma rstrip_last s c : last (rstrip s) = Some c -> isspace c = false.
Proof.
  unfold rstrip. rewrite rev_alt. fold (reverse (lstrip (rev s))).
  rewrite last_reverse. apply lstrip_head.
Qed.

(** Stripping on the right keeps the first character, if any is left. *)
Lemma rstrip_head s c :
  head (rstrip s) = Some c -> head s = Some c.
Proof.
  destruct (rstrip_split s) as (post & Hs & _). intros Hc.
  rewrite Hs. destruct (rstrip s); [done|]. done.
Qed.

(** What [strip] returns: [s] without a whitespace prefix and a whitespace
    suffix, and such that neither end of the result is whitespace. *)
Lemma strip_spec s :
  (exists pre post,
      s = pre ++ strip s ++ post
      /\ forallb isspace pre = true /\ forallb isspace post = true)
  /\ (forall c, head (strip s) = Some c -> isspace c = false)
  /\ (forall c, last (strip s) = Some c -> isspace c = false).
Proof.
  unfold strip. split; [|split].
  - destruct (lstrip_split s) as (pre & Hs & Hpre).
    destruct (rstrip_split (lstrip s)) as (post & Hl & Hpost).
    exists pre, post. split; [|done]. by rewrite <- Hl.
  - intros c Hc. apply rstrip_head in Hc. by apply lstrip_head in Hc.
  - intros c. apply rstrip_last.
Qed.

(** A string that does not start with whitespace is its own [lstrip];
    likewise on the right. *)
Lemma lstrip_fixed s :
  (forall c, head s = Some c -> isspace c = false) -> lstrip s = s.
Proof.
  destruct s as [|c s]; [done|]. intros H. simpl. by rewrite (H c).
Qed.

Lemma rstrip_fixed s :
  (forall c, last s = Some c -> isspace c = false) -> rstrip s = s.
Proof.
  intros H. unfold rstrip. rewrite lstrip_fixed; [apply rev_involutive|].
  intros c Hc. apply H. rewrite <- Hc, rev_alt.
  fold (reverse s). by rewrite head_reverse.
Qed.

Lemma strip_fixed s :
  (forall c, head s = Some c -> isspace c = false) ->
  (forall c, last s = Some c -> isspace c = false) ->
  strip s = s.
Proof.
  intros Hh Hl. unfold strip. rewrite lstrip_fixed by done.
  by apply rstrip_fixed.
Qed.

Lemma strip_idem s : strip (strip s) = strip s.
Proof. apply strip_fixed; apply strip_spec. Qed.

Lemma lstrip_whitespace s : forallb isspace s = true -> lstrip s = [].
Proof.
  induction s as [|c s IH]; [done|]. simpl.
  intros [Hc Hs]%andb_true_iff. rewrite Hc. by apply IH.
Qed.

Lemma strip_whitespace s : forallb isspace s = true -> strip s = [].
Proof. intros H. unfold strip. by rewrite lstrip_whitespace. Qed.

(** The result of [strip] is empty only for a string of whitespace. *)
Lemma strip_empty_inv s : strip s = [] -> forallb isspace s = true.
Proof.
  intros H. destruct (strip_spec s) as ((pre & post & Hs & Hpre & Hpost) & _).
  rewrite H in Hs. rewrite Hs. simpl. rewrite forallb_app.
  by rewrite Hpre, Hpost.
Qed.

End StrFacts.

(** ** The embedding driver *)

Module OpenAiEmbeddingSpec.
Import OpenAiEmbedding.

Section Spec.

Context {W Tokenizer : Type}.
Variable Embedding_create :
  gmap pystr pyobj -> openai_module -> W -> result pyobj * W.
Variable OpenAiTokenizer_new : pystr -> W -> result Tokenizer * W.
Variable openai_at_import : openai_module.

Implicit Types (self : OpenAiEmbeddingDriver Tokenizer) (st : state W Tokenizer).
Implicit Types chunk : pystr.

(** The chunk as it is sent. *)
Local Abbreviation sent_chunk self chunk :=
  (if endswith (model self) (lit "001") then replace chunk%list newline space
   else chunk%list).

(** One run of [try_embed_chunk], step by step. *)
Lemma try_embed_chunk_run self chunk st :
  try_embed_chunk Embedding_create self chunk st =
  let request := _params self (sent_chunk self chunk) in
  let (r, w) := Embedding_create request (openai st) (world st) in
  let st' := {| openai := openai st; environ := environ st;
                trace := trace st ++ [EvEmbeddingCreate request];
                world := w |} in
  match r with
  | Ok response =>
      match getitem_str response (lit "data") with
      | Ok data =>
          match getitem_int data 0 with
          | Ok first => (getitem_str first (lit "embedding"), st')
          | Raise e => (Raise e, st')
          end
      | Raise e => (Raise e, st')
      end
  | Raise e => (Raise e, st')
  end.
Proof.
  unfold try_embed_chunk, bind, call, lift. simpl.
  destruct (Embedding_create _ _ _) as [[response|e] w]; [|done].
  destruct (getitem_str response _); [|done].
  by destruct (getitem_int _ _).
Qed.


Lemma params_input self chunk :
  _params self chunk !! lit "input" = Some (VStr chunk).
Proof. unfold _params. by rewrite lookup_insert_eq. Qed.

Lemma params_size self chunk : size (_params self chunk) = 7.
Proof.
  unfold _params.
  rewrite !map_size_insert_None, map_size_singleton; [done|..];
    by vm_compute.
Qed.

(** What comes out of a response: [response["data"][0]["embedding"]]. *)
Local Abbreviation first_embedding response :=
  (match getitem_str response (lit "data") with
   | Ok data =>
       match getitem_int data 0 with
       | Ok first => getitem_str first (lit "embedding")
       | Raise e => Raise e
       end
   | Raise e => Raise e
   end).

(** The whole outcome of a call that submits [sent]: the API is applied
    to the request made of [sent], in the state of the call; the request
    is logged; result, error and world are those of that application. *)
Local Abbreviation submits self sent chunk st :=
  (try_embed_chunk Embedding_create self chunk st
   = (let (r, w) :=
        Embedding_create (_params self sent) (openai st) (world st) in
      (match r with
       | Ok response => first_embedding response
       | Raise e => Raise e
       end,
       {| openai := openai st; environ := environ st;
          trace := trace st ++ [EvEmbeddingCreate (_params self sent)];
          world := w |}))).

Lemma try_embed_chunk_submits self chunk st :
  submits self (sent_chunk self chunk) chunk st.
Proof.
  rewrite try_embed_chunk_run. cbv zeta.
  destruct (Embedding_create _ _ _) as [[response|e] w]; [|done].
  destruct (getitem_str response _); [|done].
  by destruct (getitem_int _ _).
Qed.

(** C2: the API is applied to a request whose "input" is, when the model
    name ends in "001", the input chunk with every line feed replaced by a
    space (same length, every other position unchanged), and for any other
    model name the input chunk as it is.  The outcome of the call is the
    outcome of that application. *)
Theorem legacy_model_newlines_replaced self chunk st :
  exists sent,
    submits self sent chunk st
    /\ _params self sent !! lit "input" = Some (VStr sent)
    /\ (lit "001" `suffix_of` model self ->
        length sent = length chunk
        /\ forall i c, chunk !! i = Some c ->
             sent !! i = Some (if (c =? 10)%N then 32%N else c))
    /\ (¬ lit "001" `suffix_of` model self -> sent = chunk).
Proof.
  exists (sent_chunk self chunk).
  split; [apply try_embed_chunk_submits|]. split; [apply params_input|].
  split.
  - intros Hs. apply endswith_suffix in Hs. rewrite Hs.
    unfold newline, space. rewrite replace_char. split.
    + apply length_fmap.
    + intros i c Hc. by rewrite list_lookup_fmap, Hc.
  - intros Hs. apply endswith_not_suffix in Hs. by rewrite Hs.
Qed.

(** C7, the assignment itself: [__attrs_post_init__] always returns, and
    leaves the five [openai] attributes equal to the driver's fields and
    the rest of the process as it was. *)
Lemma attrs_post_init_run self st :
  __attrs_post_init__ self st =
  (Ok tt,
   {| openai := {| openai_api_type := api_type self;
                   openai_api_version := api_version self;
                   openai_api_base := api_base self;
                   openai_api_key := api_key self;
                   openai_organization := organization self |};
      environ := environ st; trace := trace st; world := world st |}).
Proof. reflexivity. Qed.

(** C7: constructing the driver assigns the process-wide [openai]
    configuration.  Once [__init__] has returned a driver, each of the
    driver's [api_type], [api_version], [api_base], [api_key] and
    [organization] is the argument passed for it or, without one, its
    default (the module's value when the class was defined; for [api_key]
    the environment's OPENAI_API_KEY), and the module's five attributes are
    these fields, whatever they were before.  Construction returns whenever
    a tokenizer is passed or [OpenAiTokenizer] can be built. *)
Theorem construction_sets_openai_globals kw st :
  let out := __init__ OpenAiTokenizer_new openai_at_import kw st in
  (forall self st', out = (Ok self, st') ->
     (api_type self
      = default (openai_api_type openai_at_import) (kw_api_type kw)
      /\ api_version self
         = default (openai_api_version openai_at_import) (kw_api_version kw)
      /\ api_base self
         = default (openai_api_base openai_at_import) (kw_api_base kw)
      /\ api_key self
         = match kw_api_key kw with
           | Some k => k
           | None => environ st !! lit "OPENAI_API_KEY"
           end
      /\ organization self
         = default (openai_organization openai_at_import)
             (kw_organization kw))
     /\ openai_api_type (openai st') = api_type self
     /\ openai_api_version (openai st') = api_version self
     /\ openai_api_base (openai st') = api_base self
     /\ openai_api_key (openai st') = api_key self
     /\ openai_organization (openai st') = organization self)
  /\ (forall t, kw_tokenizer kw = Some t -> exists self, out.1 = Ok self)
  /\ (forall t w,
        OpenAiTokenizer_new (default DEFAULT_MODEL (kw_model kw)) (world st)
          = (Ok t, w) ->
        exists self, out.1 = Ok self).
Proof.
  intros out. subst out. unfold __init__, bind.
  destruct (kw_api_key kw) as [k|]; simpl.
  all: destruct (kw_tokenizer kw) as [t|]; simpl.
  all: unfold call; simpl.
  all: try destruct (OpenAiTokenizer_new _ _) as [[t|e] w] eqn:Hnew; simpl.
  all: (split; [|split]);
    [ intros self st' [= <- <-]; by repeat split
    | intros t' [= <-] || intros t' [=]; eauto
    | intros t' w' [= <- <-] || intros t' w' [=] || intros t' w' _; eauto ].
Qed.


(** *** Further properties of the embedding driver *)

(** [try_embed_chunk] assigns nothing: the [openai] attributes and the
    environment are after the call what they were before it, also when the
    API or the response fails it. *)
Theorem try_embed_chunk_keeps_configuration self chunk st :
  openai (try_embed_chunk Embedding_create self chunk st).2 = openai st
  /\ environ (try_embed_chunk Embedding_create self chunk st).2 = environ st.
Proof.
  rewrite try_embed_chunk_run. cbv zeta.
  destruct (Embedding_create _ _ _) as [[response|e] w]; [|done].
  destruct (getitem_str response _); [|done].
  by destruct (getitem_int _ _).
Qed.

(** A response that does not have the expected shape: without "data" the
    call raises [KeyError("data")], with an empty "data" list [IndexError],
    with a first entry lacking "embedding" [KeyError("embedding")], and
    with a response that is a list [TypeError].  The entries of "data"
    after the first are never looked at. *)
Theorem try_embed_chunk_malformed_response self chunk st response w :
  Embedding_create (_params self (sent_chunk self chunk)) (openai st)
    (world st) = (Ok response, w) ->
  let out := try_embed_chunk Embedding_create self chunk st in
  (forall d, response = VDict d -> d !! lit "data" = None ->
     out.1 = Raise (KeyError (VStr (lit "data"))))
  /\ (forall d, response = VDict d -> d !! lit "data" = Some (VList []) ->
        out.1 = Raise IndexError)
  /\ (forall d e rest,
        response = VDict d ->
        d !! lit "data" = Some (VList (VDict e :: rest)) ->
        e !! lit "embedding" = None ->
        out.1 = Raise (KeyError (VStr (lit "embedding"))))
  /\ (forall l, response = VList l -> out.1 = Raise TypeError).
Proof.
  intros Hr out. subst out. rewrite try_embed_chunk_run. cbv zeta.
  rewrite Hr. repeat split.
  - intros d -> Hd. simpl. by rewrite Hd.
  - intros d -> Hd. simpl. by rewrite Hd.
  - intros d e rest -> Hd He. simpl. rewrite Hd. simpl. by rewrite He.
  - by intros l ->.
Qed.

(** The API is applied to a request made of a chunk that has the length
    of the input chunk; for a legacy model that chunk holds no line feed;
    and an input chunk without a line feed is submitted as it is, whatever
    the model. *)
Theorem sent_chunk_line_feeds self chunk st :
  exists sent,
    submits self sent chunk st
    /\ length sent = length chunk
    /\ (lit "001" `suffix_of` model self -> 10%N ∉ sent)
    /\ (10%N ∉ chunk -> sent = chunk).
Proof.
  exists (sent_chunk self chunk). split; [apply try_embed_chunk_submits|].
  unfold newline, space. rewrite replace_char.
  destruct (endswith (model self) (lit "001")) eqn:Hm.
  - split; [apply length_fmap|]. split.
    + intros _ (c & Hc & _)%list_elem_of_fmap.
      by destruct (N.eqb_spec c 10).
    + intros Hnl. rewrite <- (list_fmap_id chunk) at 2.
      apply list_fmap_ext. intros i c Hc. simpl.
      destruct (N.eqb_spec c 10) as [->|]; [|done].
      destruct Hnl. by eapply list_elem_of_lookup_2.
  - split; [done|]. split; [|done].
    intros Hs%endswith_suffix. congruence.
Qed.

(** The tokenizer of a new driver: a tokenizer that is passed is used, and
    the constructor then calls nothing outside; without one,
    [OpenAiTokenizer] is called once, for the driver's model (the default
    model when none is passed), and its result is the driver's tokenizer. *)
Theorem init_tokenizer kw st :
  let out := __init__ OpenAiTokenizer_new openai_at_import kw st in
  (forall t, kw_tokenizer kw = Some t ->
     trace out.2 = trace st /\ world out.2 = world st
     /\ exists self, out.1 = Ok self /\ tokenizer self = t)
  /\ (kw_tokenizer kw = None ->
      trace out.2
      = trace st ++ [EvTokenizerNew (default DEFAULT_MODEL (kw_model kw))]
      /\ forall t w,
           OpenAiTokenizer_new (default DEFAULT_MODEL (kw_model kw))
             (world st) = (Ok t, w) ->
           world out.2 = w
           /\ exists self,
                out.1 = Ok self /\ tokenizer self = t
                /\ model self = default DEFAULT_MODEL (kw_model kw)).
Proof.
  intros out. subst out. unfold __init__, bind. split.
  - intros t ->. destruct (kw_api_key kw); simpl; eauto.
  - intros ->.
    destruct (kw_api_key kw); simpl; unfold call; simpl.
    all: destruct (OpenAiTokenizer_new _ _) as [[t|e] w]; simpl.
    all: split; [done|]; intros t' w' [= <- <-] || intros t' w' [=]; eauto.
Qed.

(** Construction fails only when [OpenAiTokenizer] has to be built and
    raises; the constructor then raises that error, and the [openai]
    attributes are left as they were. *)
Theorem init_failure kw st e :
  let out := __init__ OpenAiTokenizer_new openai_at_import kw st in
  out.1 = Raise e ->
  openai out.2 = openai st
  /\ kw_tokenizer kw = None
  /\ (OpenAiTokenizer_new (default DEFAULT_MODEL (kw_model kw)) (world st)).1
     = Raise e.
Proof.
  intros out. subst out. unfold __init__, bind.
  destruct (kw_api_key kw); simpl.
  all: destruct (kw_tokenizer kw); simpl; [done|].
  all: unfold call; simpl.
  all: destruct (OpenAiTokenizer_new _ _) as [[t|e'] w]; simpl; [done|].
  all: by intros [= ->].
Qed.

(** An argument [api_key] that is left out is read from the environment
    when the driver is constructed, and is [None] when the variable is not
    set; an [api_key] that is passed, [None] included, is used as it is.
    Either way it becomes the key of the [openai] module. *)
Theorem init_api_key kw st self st' :
  __init__ OpenAiTokenizer_new openai_at_import kw st = (Ok self, st') ->
  api_key self
  = match kw_api_key kw with
    | Some k => k
    | None => environ st !! lit "OPENAI_API_KEY"
    end
  /\ openai_api_key (openai st') = api_key self
  /\ environ st' = environ st.
Proof.
  unfold __init__, bind.
  destruct (kw_api_key kw); simpl.
  all: destruct (kw_tokenizer kw); simpl; unfold call; simpl.
  all: try destruct (OpenAiTokenizer_new _ _) as [[t|e'] w]; simpl.
  all: by intros [= <- <-].
Qed.

End Spec.

(** The legacy driver of [Demo] and the driver for the default model, on
    "a", line feed, "b". *)
Lemma legacy_model_newlines_replaced_witness :
  (lit "001" `suffix_of` model Demo.legacy_driver
   /\ exists sent,
       try_embed_chunk Demo.Embedding_create Demo.legacy_driver
         Demo.two_lines Demo.openai_state
       = (Ok (VList [VFloat 0; VFloat 1]),
          {| openai := Demo.openai_defaults;
             environ := environ Demo.openai_state;
             trace := [EvEmbeddingCreate (_params Demo.legacy_driver sent)];
             world := 1 |})
       /\ length sent = 3
       /\ sent !! 0 = Some 97%N /\ sent !! 1 = Some 32%N
       /\ sent !! 2 = Some 98%N)
  /\ (¬ lit "001" `suffix_of` model Demo.default_driver
      /\ exists sent,
          try_embed_chunk Demo.Embedding_create Demo.default_driver
            Demo.two_lines Demo.openai_state
          = (Ok (VList [VFloat 0; VFloat 1]),
             {| openai := Demo.openai_defaults;
                environ := environ Demo.openai_state;
                trace := [EvEmbeddingCreate (_params Demo.default_driver sent)];
                world := 1 |})
          /\ sent = Demo.two_lines).
Proof.
  assert (Hs : lit "001" `suffix_of` model Demo.legacy_driver)
    by (exists (lit "text-search-ada-doc-"); reflexivity).
  assert (Hn : ¬ lit "001" `suffix_of` model Demo.default_driver)
    by (apply endswith_not_suffix; reflexivity).
  split; (split; [assumption|]).
  - destruct (legacy_model_newlines_replaced Demo.Embedding_create
                Demo.legacy_driver Demo.two_lines Demo.openai_state)
      as (sent & Hrun & _ & Hlegacy & _).
    destruct (Hlegacy Hs) as [Hlen Hpos].
    exists sent. split; [exact Hrun|]. split; [exact Hlen|].
    split; [exact (Hpos 0 97%N eq_refl)|].
    split; [exact (Hpos 1 10%N eq_refl)|exact (Hpos 2 98%N eq_refl)].
  - destruct (legacy_model_newlines_replaced Demo.Embedding_create
                Demo.default_driver Demo.two_lines Demo.openai_state)
      as (sent & Hrun & _ & _ & Hplain).
    exists sent. split; [exact Hrun|exact (Hplain Hn)].
Defined.

(** Construction from [Demo.legacy_kwargs], the tokenizer built by the
    factory: the five attributes, which were those of
    [Demo.openai_defaults], are the arguments (and, for [organization],
    which is not passed, the default). *)
Lemma construction_sets_openai_globals_witness :
  exists self st',
    __init__ Demo.OpenAiTokenizer_new Demo.openai_defaults
      Demo.legacy_kwargs Demo.openai_state = (Ok self, st')
    /\ openai_api_type (openai st') = lit "azure"
    /\ openai_api_version (openai st') = Some (lit "2023-05-15")
    /\ openai_api_base (openai st') = lit "https://example.openai.azure.com"
    /\ openai_api_key (openai st') = Some (lit "sk-arg")
    /\ openai_organization (openai st') = None
    /\ openai_api_type (openai st') = api_type self
    /\ openai_api_version (openai st') = api_version self
    /\ openai_api_base (openai st') = api_base self
    /\ openai_api_key (openai st') = api_key self
    /\ openai_organization (openai st') = organization self.
Proof.
  destruct (__init__ Demo.OpenAiTokenizer_new Demo.openai_defaults
              Demo.legacy_kwargs Demo.openai_state) as [[self|e] st'] eqn:Hrun;
    [|discriminate Hrun].
  exists self, st'. split; [reflexivity|].
  destruct (construction_sets_openai_globals Demo.OpenAiTokenizer_new
              Demo.openai_defaults Demo.legacy_kwargs Demo.openai_state)
    as (Hset & _ & _).
  destruct (Hset self st' Hrun)
    as ((Ht & Hv & Hb & Hk & Ho) & Gt & Gv & Gb & Gk & Go).
  rewrite Gt, Gv, Gb, Gk, Go, Ht, Hv, Hb, Hk, Ho. by repeat split.
Defined.


(** *** The further properties on the processes of [Demo] *)

Lemma try_embed_chunk_malformed_response_witness :
  (try_embed_chunk (Demo.Embedding_create_with Demo.no_data)
     Demo.legacy_driver Demo.two_lines Demo.openai_state).1
  = Raise (KeyError (VStr (lit "data")))
  /\ (try_embed_chunk (Demo.Embedding_create_with Demo.empty_data)
        Demo.legacy_driver Demo.two_lines Demo.openai_state).1
     = Raise IndexError
  /\ (try_embed_chunk (Demo.Embedding_create_with Demo.no_embedding)
        Demo.legacy_driver Demo.two_lines Demo.openai_state).1
     = Raise (KeyError (VStr (lit "embedding"))).
Proof.
  split; [|split].
  - destruct (try_embed_chunk_malformed_response
                (Demo.Embedding_create_with Demo.no_data) Demo.legacy_driver
                Demo.two_lines Demo.openai_state _ _ eq_refl) as (H & _).
    apply (H _ eq_refl). reflexivity.
  - destruct (try_embed_chunk_malformed_response
                (Demo.Embedding_create_with Demo.empty_data)
                Demo.legacy_driver Demo.two_lines Demo.openai_state _ _
                eq_refl) as (_ & H & _).
    apply (H _ eq_refl). reflexivity.
  - destruct (try_embed_chunk_malformed_response
                (Demo.Embedding_create_with Demo.no_embedding)
                Demo.legacy_driver Demo.two_lines Demo.openai_state _ _
                eq_refl) as (_ & _ & H & _).
    eapply (H _ _ _ eq_refl); reflexivity.
Defined.

Lemma sent_chunk_line_feeds_witness :
  (exists sent,
     try_embed_chunk Demo.Embedding_create Demo.legacy_driver
       Demo.two_lines Demo.openai_state
     = (Ok (VList [VFloat 0; VFloat 1]),
        {| openai := Demo.openai_defaults;
           environ := environ Demo.openai_state;
           trace := [EvEmbeddingCreate (_params Demo.legacy_driver sent)];
           world := 1 |})
     /\ 10%N ∉ sent)
  /\ try_embed_chunk Demo.Embedding_create Demo.legacy_driver
       (lit "a b") Demo.openai_state
     = (Ok (VList [VFloat 0; VFloat 1]),
        {| openai := Demo.openai_defaults;
           environ := environ Demo.openai_state;
           trace := [EvEmbeddingCreate
                       (_params Demo.legacy_driver (lit "a b"))];
           world := 1 |}).
Proof.
  split.
  - destruct (sent_chunk_line_feeds Demo.Embedding_create Demo.legacy_driver
                Demo.two_lines Demo.openai_state)
      as (sent & Hrun & _ & Hnl & _).
    exists sent. split; [exact Hrun|]. apply Hnl.
    exists (lit "text-search-ada-doc-"). reflexivity.
  - destruct (sent_chunk_line_feeds Demo.Embedding_create Demo.legacy_driver
                (lit "a b") Demo.openai_state)
      as (sent & Hrun & _ & _ & Hsame).
    rewrite Hrun, Hsame; [reflexivity|]. vm_compute.
    intros H. repeat (apply elem_of_cons in H as [H|H]; [discriminate H|]).
    by apply elem_of_nil in H.
Defined.

Lemma init_tokenizer_witness :
  trace (__init__ Demo.OpenAiTokenizer_new Demo.openai_defaults
           Demo.tokenizer_kwargs Demo.openai_state).2 = []
  /\ trace (__init__ Demo.OpenAiTokenizer_new Demo.openai_defaults
              Demo.legacy_kwargs Demo.openai_state).2
     = [EvTokenizerNew (lit "text-search-ada-doc-001")]
  /\ world (__init__ Demo.OpenAiTokenizer_new Demo.openai_defaults
              Demo.legacy_kwargs Demo.openai_state).2 = 1.
Proof.
  split; [|split].
  - destruct (init_tokenizer Demo.OpenAiTokenizer_new Demo.openai_defaults
                Demo.tokenizer_kwargs Demo.openai_state) as [H _].
    destruct (H tt eq_refl) as (Ht & _). exact Ht.
  - destruct (init_tokenizer Demo.OpenAiTokenizer_new Demo.openai_defaults
                Demo.legacy_kwargs Demo.openai_state) as [_ H].
    destruct (H eq_refl) as (Ht & _). exact Ht.
  - destruct (init_tokenizer Demo.OpenAiTokenizer_new Demo.openai_defaults
                Demo.legacy_kwargs Demo.openai_state) as [_ H].
    destruct (H eq_refl) as (_ & Hw).
    destruct (Hw tt 1 eq_refl) as (Hworld & _). exact Hworld.
Defined.

Lemma init_failure_witness :
  openai (__init__ Demo.OpenAiTokenizer_new_failing Demo.openai_defaults
            Demo.legacy_kwargs Demo.openai_state).2 = Demo.openai_defaults
  /\ (__init__ Demo.OpenAiTokenizer_new_failing Demo.openai_defaults
        Demo.legacy_kwargs Demo.openai_state).1 = Raise Demo.model_not_found.
Proof.
  split; [|reflexivity].
  exact (proj1 (init_failure Demo.OpenAiTokenizer_new_failing
                  Demo.openai_defaults Demo.legacy_kwargs Demo.openai_state
                  Demo.model_not_found eq_refl)).
Defined.

Lemma init_api_key_witness :
  exists self st',
    __init__ Demo.OpenAiTokenizer_new Demo.openai_defaults
      Demo.tokenizer_kwargs Demo.openai_state = (Ok self, st')
    /\ api_key self = Some (lit "sk-env")
    /\ openai_api_key (openai st') = Some (lit "sk-env").
Proof.
  destruct (__init__ Demo.OpenAiTokenizer_new Demo.openai_defaults
              Demo.tokenizer_kwargs Demo.openai_state)
    as [[self|e] st'] eqn:Hrun; [|discriminate Hrun].
  exists self, st'. split; [reflexivity|].
  destruct (init_api_key Demo.OpenAiTokenizer_new Demo.openai_defaults
              Demo.tokenizer_kwargs Demo.openai_state self st' Hrun)
    as (Hkey & Hmod & _).
  rewrite Hmod, Hkey. split; reflexivity.
Defined.

End OpenAiEmbeddingSpec.

(** ** The prompt driver *)

Module HuggingFaceHubSpec.
Import HuggingFaceHub.

Section Spec.

Context {W PromptStack Tokenizer : Type}.

Implicit Types self : HuggingFaceHubPromptDriver W PromptStack Tokenizer.
Implicit Types (st : state W PromptStack) (ps pps : PromptStack).
Implicit Types (prompt text : pystr) (response processed : pyobj).

(** What [try_run] does with the processed response. *)
Local Abbreviation choose processed :=
  (let* n := lift (len processed) in
   if (n =? 1)%nat then
     let* choice := lift (getitem_int processed 0) in
     let* generated_text := lift (getitem_str choice (lit "generated_text")) in
     let* text := lift (strip_method generated_text) in
     ret {| value := text |}
   else
     raise (Exception
              (lit "completion with more than one choice is not supported yet"))).

Lemma choose_state {S} processed (s : S) : (choose processed s).2 = s.
Proof.
  unfold bind, lift, ret, raise.
  destruct (len processed) as [n|]; [|done]. simpl.
  destruct (n =? 1)%nat; [|done].
  destruct (getitem_int processed 0) as [c|]; [|done]. simpl.
  destruct (getitem_str c _) as [g|]; [|done]. simpl.
  by destruct (strip_method g).
Qed.

Lemma choose_result {S} processed (s s' : S) :
  (choose processed s).1 = (choose processed s').1.
Proof.
  unfold bind, lift, ret, raise.
  destruct (len processed) as [n|]; [|done]. simpl.
  destruct (n =? 1)%nat; [|done].
  destruct (getitem_int processed 0) as [c|]; [|done]. simpl.
  destruct (getitem_str c _) as [g|]; [|done]. simpl.
  by destruct (strip_method g).
Qed.

(** The processed responses from which an artifact is made: exactly the
    one-element lists whose element has a [str] under "generated_text". *)
Lemma choose_ok {S} processed (s : S) a :
  (choose processed s).1 = Ok a <->
  exists d text,
    processed = VList [VDict d] /\ d !! lit "generated_text" = Some (VStr text)
    /\ a = {| value := strip text |}.
Proof.
  unfold bind, lift, ret, raise. split.
  - destruct processed as [| | | |s0|l|d]; simpl; try done.
    + destruct s0 as [|c [|? ?]]; simpl; done.
    + destruct l as [|c [|? ?]]; simpl; try done.
      destruct c as [| | | | | |d]; simpl; try done.
      destruct (d !! _) as [g|] eqn:Hg; simpl; [|done].
      destruct g; simpl; try done. intros [= <-]. eauto.
    + destruct (size d =? 1)%nat; simpl; done.
  - intros (d & text & -> & Hd & ->). simpl. by rewrite Hd.
Qed.

Lemma choose_len {S} processed (s : S) n :
  len processed = Ok n -> n <> 1 ->
  (choose processed s).1
  = Raise (Exception
             (lit "completion with more than one choice is not supported yet")).
Proof.
  intros Hn Hne. unfold bind, lift, raise. rewrite Hn. simpl.
  by apply Nat.eqb_neq in Hne as ->.
Qed.

(** A run on a supported task whose four calls return. *)
Lemma try_run_supported self ps st pps prompt response processed w' :
  task (client self) ∈ SUPPORTED_TASKS ->
  calls_return self ps (world st) pps prompt response processed w' ->
  try_run self ps st =
  choose processed
    {| trace := trace st ++ [EvBeforeRun ps; EvPromptStackToString pps;
                             EvClient prompt (run_params self);
                             EvAfterRun response];
       world := w' |}.
Proof.
  intros Htask [w1 w2 w3 H1 H2 H3 H4].
  unfold try_run, bind at 1 2, call. simpl. rewrite H1. simpl. rewrite H2.
  rewrite bool_decide_eq_true_2 by done.
  unfold bind at 1 2, call. simpl. fold (run_params self).
  rewrite H3. simpl. rewrite H4. by rewrite <- !app_assoc.
Qed.



(** C3: on a supported task, when the processed response is a list of
    exactly one choice, [try_run] returns an artifact whose text is the
    choice's generated text without its leading and trailing whitespace;
    when it is a list of more than one choice, [try_run] raises. *)
Theorem one_choice_returns_stripped_text
    self ps st pps prompt response processed w' :
  task (client self) ∈ SUPPORTED_TASKS ->
  calls_return self ps (world st) pps prompt response processed w' ->
  (forall d text,
     processed = VList [VDict d] ->
     d !! lit "generated_text" = Some (VStr text) ->
     exists a,
       (try_run self ps st).1 = Ok a
       /\ value a = strip text
       /\ (exists pre post,
             text = pre ++ value a ++ post
             /\ forallb isspace pre = true /\ forallb isspace post = true)
       /\ (forall c, head (value a) = Some c -> isspace c = false)
       /\ (forall c, last (value a) = Some c -> isspace c = false))
  /\ (forall choices,
        processed = VList choices -> 1 < length choices ->
        (try_run self ps st).1
        = Raise (Exception
                   (lit "completion with more than one choice is not supported yet"))).
Proof.
  intros Htask Hcalls. rewrite (try_run_supported _ _ _ _ _ _ _ _ Htask Hcalls).
  split.
  - intros d text -> Hd. exists {| value := strip text |}.
    split; [apply choose_ok; eauto|]. split; [done|]. apply strip_spec.
  - intros choices -> Hlen. apply (choose_len _ _ (length choices)); [done|lia].
Qed.

(** C4: with [stream=True] the constructor never returns a driver: it
    raises.  The validator raises [ValueError] on [True] whatever the
    driver, and that is the error of the constructor when the required
    arguments, a client and a tokenizer are passed. *)
Theorem stream_fails_validation
    (InferenceApi_new : pystr -> pystr -> bool -> W
                        -> result (InferenceApi W) * W)
    (HuggingFaceTokenizer_new : pystr -> Z -> W -> result Tokenizer * W)
    (default_pii_processor : BasePromptStackProcessor W PromptStack)
    (default_prompt_stack_to_string : PromptStack -> W -> result pystr * W)
    (kw : kwargs W PromptStack Tokenizer) st :
  kw_stream kw = Some true ->
  let out := __init__ InferenceApi_new HuggingFaceTokenizer_new
               default_pii_processor default_prompt_stack_to_string kw st in
  (exists e, out.1 = Raise e)
  /\ (forall self,
        validate_stream self true st
        = (Raise (ValueError (lit "streaming is not supported")), st))
  /\ (is_Some (kw_api_token kw) -> is_Some (kw_model kw) ->
      is_Some (kw_client kw) -> is_Some (kw_tokenizer kw) ->
      out = (Raise (ValueError (lit "streaming is not supported")), st)).
Proof.
  intros Hstream out. subst out. unfold __init__. rewrite Hstream.
  split; [|split; [done|]].
  - unfold bind, required, call, raise, ret. simpl.
    destruct (kw_api_token kw); simpl; [|eauto].
    destruct (kw_model kw); simpl; [|eauto].
    destruct (kw_client kw); simpl;
      [|destruct (InferenceApi_new _ _ _ _) as [[?|?] ?]; simpl; [|eauto]].
    all: destruct (kw_tokenizer kw); simpl;
      [|destruct (HuggingFaceTokenizer_new _ _ _) as [[?|?] ?]; simpl];
      eauto.
  - intros [? ->] [? ->] [? ->] [? ->]. by destruct st.
Qed.

(** C5: [try_stream] raises [NotImplementedError] for every driver, prompt
    stack and state, and leaves the state (calls made, world) as it was. *)
Theorem try_stream_not_implemented self ps st :
  try_stream self ps st
  = (Raise (NotImplementedError (lit "streaming is not supported")), st).
Proof. reflexivity. Qed.

(** C6, as the code has it: on a supported task, and when the calls
    return, [try_run] calls in this order the pre-call hook on the prompt
    stack, the converter on the processed stack, the client on the
    resulting prompt and the post-call hook on the raw response, and makes
    no other call; it then returns one artifact when the processed
    response is a list of one choice with a [str] under "generated_text",
    and raises when the processed response is not a one-element list. *)
Theorem try_run_pipeline self ps st pps prompt response processed w' :
  task (client self) ∈ SUPPORTED_TASKS ->
  calls_return self ps (world st) pps prompt response processed w' ->
  (try_run self ps st).2
  = {| trace := trace st ++ [EvBeforeRun ps; EvPromptStackToString pps;
                             EvClient prompt (run_params self);
                             EvAfterRun response];
       world := w' |}
  /\ (forall d text,
        processed = VList [VDict d] ->
        d !! lit "generated_text" = Some (VStr text) ->
        (try_run self ps st).1 = Ok {| value := strip text |})
  /\ ((forall c, processed <> VList [c]) ->
      exists e, (try_run self ps st).1 = Raise e).
Proof.
  intros Htask Hcalls. rewrite (try_run_supported _ _ _ _ _ _ _ _ Htask Hcalls).
  split; [apply choose_state|]. split.
  - intros d text -> Hd. apply choose_ok. eauto.
  - intros Hne.
    destruct (choose processed _).1 as [a|e] eqn:Ha; [|eauto].
    apply choose_ok in Ha as (d & text & -> & _). by destruct (Hne (VDict d)).
Qed.

(** C9: on a supported task, a processed response with no choice makes
    [try_run] raise; an artifact is returned only for a response of exactly
    one choice, and any other response makes [try_run] raise. *)
Theorem not_one_choice_raises self ps st pps prompt response processed w' :
  task (client self) ∈ SUPPORTED_TASKS ->
  calls_return self ps (world st) pps prompt response processed w' ->
  (processed = VList [] ->
   (try_run self ps st).1
   = Raise (Exception
              (lit "completion with more than one choice is not supported yet")))
  /\ (forall a, (try_run self ps st).1 = Ok a ->
        exists c, processed = VList [c])
  /\ ((forall c, processed <> VList [c]) ->
      exists e, (try_run self ps st).1 = Raise e).
Proof.
  intros Htask Hcalls. rewrite (try_run_supported _ _ _ _ _ _ _ _ Htask Hcalls).
  split; [|split].
  - intros ->. by apply (choose_len _ _ 0).
  - intros a Ha. apply choose_ok in Ha as (d & text & -> & _). eauto.
  - intros Hne.
    destruct (choose processed _).1 as [a|e] eqn:Ha; [|eauto].
    apply choose_ok in Ha as (d & text & -> & _). by destruct (Hne (VDict d)).
Qed.

(** A run on a supported task, from the point where the converter has
    returned. *)
Lemma try_run_from_client self ps st pps w1 prompt w2 :
  task (client self) ∈ SUPPORTED_TASKS ->
  before_run (pii_processor self) ps (world st) = (Ok pps, w1) ->
  prompt_stack_to_string self pps w1 = (Ok prompt, w2) ->
  try_run self ps st =
  match client_call (client self) prompt (run_params self) w2 with
  | (Ok response, w3) =>
      match after_run (pii_processor self) response w3 with
      | (Ok processed, w4) =>
          choose processed
            {| trace := trace st
                        ++ [EvBeforeRun ps; EvPromptStackToString pps;
                            EvClient prompt (run_params self);
                            EvAfterRun response];
               world := w4 |}
      | (Raise e, w4) =>
          (Raise e,
           {| trace := trace st
                       ++ [EvBeforeRun ps; EvPromptStackToString pps;
                           EvClient prompt (run_params self);
                           EvAfterRun response];
              world := w4 |})
      end
  | (Raise e, w3) =>
      (Raise e,
       {| trace := trace st
                   ++ [EvBeforeRun ps; EvPromptStackToString pps;
                       EvClient prompt (run_params self)];
          world := w3 |})
  end.
Proof.
  intros Htask H1 H2.
  unfold try_run, bind at 1 2, call. simpl. rewrite H1. simpl. rewrite H2.
  rewrite bool_decide_eq_true_2 by done.
  unfold bind at 1 2, call. simpl. fold (run_params self).
  destruct (client_call _ _ _ _) as [[response|e] w3]; simpl.
  - destruct (after_run _ _ _) as [[processed|e] w4]; simpl;
      by rewrite <- !app_assoc.
  - by rewrite <- !app_assoc.
Qed.

(** On a supported task the client is applied to the prompt and to
    [run_params], right after the converter, in the world the converter
    left; the rest of the run is the rest of that application. *)
Lemma client_applied_to_run_params self ps st pps w1 prompt w2 :
  task (client self) ∈ SUPPORTED_TASKS ->
  before_run (pii_processor self) ps (world st) = (Ok pps, w1) ->
  prompt_stack_to_string self pps w1 = (Ok prompt, w2) ->
  exists later,
    trace (try_run self ps st).2
    = trace st ++ [EvBeforeRun ps; EvPromptStackToString pps;
                   EvClient prompt (run_params self)] ++ later
    /\ Forall (fun ev => is_client_call ev = false) later
    /\ (forall e w3,
          client_call (client self) prompt (run_params self) w2
            = (Raise e, w3) ->
          try_run self ps st
          = (Raise e,
             {| trace := trace st
                         ++ [EvBeforeRun ps; EvPromptStackToString pps;
                             EvClient prompt (run_params self)];
                world := w3 |}))
    /\ (forall response w3,
          client_call (client self) prompt (run_params self) w2
            = (Ok response, w3) ->
          later = [EvAfterRun response]
          /\ world (try_run self ps st).2
             = (after_run (pii_processor self) response w3).2).
Proof.
  intros Htask H1 H2.
  rewrite (try_run_from_client self ps st pps w1 prompt w2 Htask H1 H2).
  destruct (client_call _ _ _ _) as [[response|e] w3]; simpl.
  - exists [EvAfterRun response].
    destruct (after_run _ _ _) as [[processed|e] w4] eqn:Ha; simpl.
    + rewrite choose_state. simpl.
      split; [done|]. split; [by apply Forall_singleton|].
      split; [done|]. intros ? ? [= <- <-]. by rewrite Ha.
    + split; [done|]. split; [by apply Forall_singleton|].
      split; [done|]. intros ? ? [= <- <-]. by rewrite Ha.
  - exists []. split; [done|]. split; [constructor|].
    split; [|done]. by intros ? ? [= <- <-].
Qed.

Lemma dict_or_lookup (d1 d2 : gmap pystr pyobj) k :
  dict_or d1 d2 !! k
  = match d2 !! k with Some v => Some v | None => d1 !! k end.
Proof.
  unfold dict_or. rewrite lookup_union.
  by destruct (d2 !! k), (d1 !! k).
Qed.

(** C10: the parameters the client is applied to are the defaults
    [return_full_text = False], [max_new_tokens = 250] merged with the
    driver's [params]: every key of [params] with its value there, every
    other key as in the defaults.  The client is called once, with them:
    its error is the error of the run, and its response is what the
    post-call hook is applied to. *)
Theorem client_params_merge self ps st pps w1 prompt w2 :
  task (client self) ∈ SUPPORTED_TASKS ->
  before_run (pii_processor self) ps (world st) = (Ok pps, w1) ->
  prompt_stack_to_string self pps w1 = (Ok prompt, w2) ->
  exists submitted later,
    trace (try_run self ps st).2
    = trace st ++ [EvBeforeRun ps; EvPromptStackToString pps;
                   EvClient prompt submitted] ++ later
    /\ Forall (fun ev => is_client_call ev = false) later
    /\ (forall k,
          submitted !! k
          = match params self !! k with
            | Some v => Some v
            | None => DEFAULT_PARAMS !! k
            end)
    /\ DEFAULT_PARAMS !! lit "return_full_text" = Some (VBool false)
    /\ DEFAULT_PARAMS !! lit "max_new_tokens" = Some (VInt 250)
    /\ size DEFAULT_PARAMS = 2
    /\ (forall e w3,
          client_call (client self) prompt submitted w2 = (Raise e, w3) ->
          try_run self ps st
          = (Raise e,
             {| trace := trace st
                         ++ [EvBeforeRun ps; EvPromptStackToString pps;
                             EvClient prompt submitted];
                world := w3 |}))
    /\ (forall response w3,
          client_call (client self) prompt submitted w2 = (Ok response, w3) ->
          later = [EvAfterRun response]
          /\ world (try_run self ps st).2
             = (after_run (pii_processor self) response w3).2).
Proof.
  intros Htask H1 H2.
  destruct (client_applied_to_run_params self ps st pps w1 prompt w2
              Htask H1 H2) as (later & Htrace & Hlater & Herr & Hok).
  exists (run_params self), later.
  split; [done|]. split; [done|]. split; [apply dict_or_lookup|].
  split; [by vm_compute|]. split; [by vm_compute|]. split; [by vm_compute|].
  split; [exact Herr|exact Hok].
Qed.

(** *** Further properties of the prompt driver *)

Local Abbreviation too_many_choices :=
  (Exception (lit "completion with more than one choice is not supported yet")).

(** An error of the pre-call hook or of the converter is the error of
    [try_run], whatever the client's task; nothing is called after the
    call that failed. *)
Theorem pre_call_errors_propagate self ps st :
  (forall e w,
     before_run (pii_processor self) ps (world st) = (Raise e, w) ->
     try_run self ps st
     = (Raise e, {| trace := trace st ++ [EvBeforeRun ps]; world := w |}))
  /\ (forall pps w1 e w2,
        before_run (pii_processor self) ps (world st) = (Ok pps, w1) ->
        prompt_stack_to_string self pps w1 = (Raise e, w2) ->
        try_run self ps st
        = (Raise e,
           {| trace := trace st ++ [EvBeforeRun ps; EvPromptStackToString pps];
              world := w2 |})).
Proof.
  split.
  - intros e w Hb. unfold try_run, bind, call. simpl. by rewrite Hb.
  - intros pps w1 e w2 Hb Hp. unfold try_run, bind, call. simpl.
    rewrite Hb. simpl. rewrite Hp. by rewrite <- app_assoc.
Qed.

(** On a supported task, an error of the client is the error of
    [try_run], and the post-call hook is not called; an error of the
    post-call hook is the error of [try_run].  The client is not called a
    second time. *)
Theorem call_errors_propagate self ps st pps w1 prompt w2 :
  task (client self) ∈ SUPPORTED_TASKS ->
  before_run (pii_processor self) ps (world st) = (Ok pps, w1) ->
  prompt_stack_to_string self pps w1 = (Ok prompt, w2) ->
  (forall e w3,
     client_call (client self) prompt (run_params self) w2 = (Raise e, w3) ->
     try_run self ps st
     = (Raise e,
        {| trace := trace st ++ [EvBeforeRun ps; EvPromptStackToString pps;
                                 EvClient prompt (run_params self)];
           world := w3 |}))
  /\ (forall response w3 e w4,
        client_call (client self) prompt (run_params self) w2
          = (Ok response, w3) ->
        after_run (pii_processor self) response w3 = (Raise e, w4) ->
        try_run self ps st
        = (Raise e,
           {| trace := trace st ++ [EvBeforeRun ps; EvPromptStackToString pps;
                                    EvClient prompt (run_params self);
                                    EvAfterRun response];
              world := w4 |})).
Proof.
  intros Htask Hb Hp. split.
  - intros e w3 Hc.
    unfold try_run, bind at 1 2, call. simpl. rewrite Hb. simpl. rewrite Hp.
    rewrite bool_decide_eq_true_2 by done.
    unfold bind at 1 2, call. simpl. fold (run_params self).
    rewrite Hc. by rewrite <- !app_assoc.
  - intros response w3 e w4 Hc Ha.
    unfold try_run, bind at 1 2, call. simpl. rewrite Hb. simpl. rewrite Hp.
    rewrite bool_decide_eq_true_2 by done.
    unfold bind at 1 2, call. simpl. fold (run_params self).
    rewrite Hc. simpl. rewrite Ha. by rewrite <- !app_assoc.
Qed.

(** A run, case by case on what the four calls do. *)
Lemma try_run_cases self ps st :
  try_run self ps st =
  match before_run (pii_processor self) ps (world st) with
  | (Raise e, w1) =>
      (Raise e, {| trace := trace st ++ [EvBeforeRun ps]; world := w1 |})
  | (Ok pps, w1) =>
      match prompt_stack_to_string self pps w1 with
      | (Raise e, w2) =>
          (Raise e,
           {| trace := trace st ++ [EvBeforeRun ps; EvPromptStackToString pps];
              world := w2 |})
      | (Ok prompt, w2) =>
          if bool_decide (task (client self) ∈ SUPPORTED_TASKS) then
            match client_call (client self) prompt (run_params self) w2 with
            | (Raise e, w3) =>
                (Raise e,
                 {| trace := trace st
                             ++ [EvBeforeRun ps; EvPromptStackToString pps;
                                 EvClient prompt (run_params self)];
                    world := w3 |})
            | (Ok response, w3) =>
                match after_run (pii_processor self) response w3 with
                | (Raise e, w4) =>
                    (Raise e,
                     {| trace := trace st
                                 ++ [EvBeforeRun ps; EvPromptStackToString pps;
                                     EvClient prompt (run_params self);
                                     EvAfterRun response];
                        world := w4 |})
                | (Ok processed, w4) =>
                    choose processed
                      {| trace := trace st
                                  ++ [EvBeforeRun ps; EvPromptStackToString pps;
                                      EvClient prompt (run_params self);
                                      EvAfterRun response];
                         world := w4 |}
                end
            end
          else
            (Raise (Exception unsupported_task_message),
             {| trace := trace st ++ [EvBeforeRun ps; EvPromptStackToString pps];
                world := w2 |})
      end
  end.
Proof.
  unfold try_run, bind at 1 2, call. simpl.
  destruct (before_run _ ps _) as [[pps|e] w1]; [|done]. simpl.
  destruct (prompt_stack_to_string self pps w1) as [[prompt|e] w2]; simpl;
    [|by rewrite <- app_assoc].
  destruct (bool_decide _); [|unfold raise; by rewrite <- app_assoc].
  unfold bind at 1 2, call. simpl. fold (run_params self).
  destruct (client_call _ _ _ _) as [[response|e] w3]; simpl;
    [|by rewrite <- !app_assoc].
  destruct (after_run _ _ _) as [[processed|e] w4]; simpl;
    by rewrite <- !app_assoc.
Qed.

(** Whatever happens, one run calls the pre-call hook first and never
    again, the client at most once, the post-call hook at most once, and
    makes at most four calls in all; and the calls in the trace are all
    the calls there are: the world after the run is the world obtained by
    making them, in order, from the world before it. *)
Theorem try_run_calls_at_most_once self ps st :
  exists rest,
    trace (try_run self ps st).2 = trace st ++ EvBeforeRun ps :: rest
    /\ world (try_run self ps st).2
       = foldl (perform self) (world st) (EvBeforeRun ps :: rest)
    /\ length rest <= 3
    /\ Forall (fun ev => is_before_run_call ev = false) rest
    /\ length (filter (fun ev => is_client_call ev = true) rest) <= 1
    /\ length (filter (fun ev => is_after_run_call ev = true) rest) <= 1.
Proof.
  rewrite try_run_cases.
  destruct (before_run _ ps _) as [[pps|e] w1] eqn:Hb.
  2: { exists []. simpl. rewrite Hb. repeat split; (lia || constructor). }
  destruct (prompt_stack_to_string self pps w1) as [[prompt|e] w2] eqn:Hp.
  2: { exists [EvPromptStackToString pps]. simpl. rewrite Hb. simpl.
       rewrite Hp. repeat split; (lia || by apply Forall_singleton). }
  destruct (bool_decide _).
  2: { exists [EvPromptStackToString pps]. simpl. rewrite Hb. simpl.
       rewrite Hp. repeat split; (lia || by apply Forall_singleton). }
  destruct (client_call _ _ _ _) as [[response|e] w3] eqn:Hc.
  2: { exists [EvPromptStackToString pps; EvClient prompt (run_params self)].
       simpl. rewrite Hb. simpl. rewrite Hp. simpl. rewrite Hc.
       repeat split; (lia || by repeat (constructor; [done|])). }
  exists [EvPromptStackToString pps; EvClient prompt (run_params self);
          EvAfterRun response].
  assert (Hworld :
    foldl (perform self) (world st)
      [EvBeforeRun ps; EvPromptStackToString pps;
       EvClient prompt (run_params self); EvAfterRun response]
    = (after_run (pii_processor self) response w3).2).
  { simpl. rewrite Hb. simpl. rewrite Hp. simpl. by rewrite Hc. }
  rewrite Hworld.
  destruct (after_run _ _ _) as [[processed|e] w4].
  - rewrite choose_state. simpl.
    repeat split; (lia || by repeat (constructor; [done|])).
  - simpl. repeat split; (lia || by repeat (constructor; [done|])).
Qed.

(** Processed responses that are not a list of choices.  A dictionary
    with one entry (an error payload) raises [KeyError(0)], one with any
    other number of entries the choice-count exception; a string of one
    character raises [TypeError]; [None], a Boolean or a number, which
    have no length, raise [TypeError]. *)
Theorem response_not_a_list self ps st pps prompt response processed w' :
  task (client self) ∈ SUPPORTED_TASKS ->
  calls_return self ps (world st) pps prompt response processed w' ->
  let out := try_run self ps st in
  (forall d, processed = VDict d -> size d = 1 ->
     out.1 = Raise (KeyError (VInt 0)))
  /\ (forall d, processed = VDict d -> size d <> 1 ->
        out.1 = Raise too_many_choices)
  /\ (forall c, processed = VStr [c] -> out.1 = Raise TypeError)
  /\ (processed = VNone
      \/ (exists b, processed = VBool b)
      \/ (exists z, processed = VInt z)
      \/ (exists f, processed = VFloat f) ->
      out.1 = Raise TypeError).
Proof.
  intros Htask Hcalls out. subst out.
  rewrite (try_run_supported _ _ _ _ _ _ _ _ Htask Hcalls).
  unfold bind, lift, raise. repeat split.
  - intros d -> Hd. simpl. by rewrite Hd.
  - intros d -> Hd. simpl. by apply Nat.eqb_neq in Hd as ->.
  - by intros c ->.
  - by intros [->|[[b ->]|[[z ->]|[f ->]]]].
Qed.

(** A single choice that is not as expected: a dictionary without
    "generated_text" raises [KeyError("generated_text")]; a value under
    that key that is not a [str] raises [AttributeError]; a choice that is
    not a dictionary raises [TypeError]. *)
Theorem malformed_choice self ps st pps prompt response processed w' :
  task (client self) ∈ SUPPORTED_TASKS ->
  calls_return self ps (world st) pps prompt response processed w' ->
  let out := try_run self ps st in
  (forall d, processed = VList [VDict d] ->
     d !! lit "generated_text" = None ->
     out.1 = Raise (KeyError (VStr (lit "generated_text"))))
  /\ (forall d v, processed = VList [VDict d] ->
        d !! lit "generated_text" = Some v ->
        (forall text, v <> VStr text) ->
        out.1 = Raise AttributeError)
  /\ (forall c, processed = VList [c] ->
        (forall d, c <> VDict d) ->
        out.1 = Raise TypeError).
Proof.
  intros Htask Hcalls out. subst out.
  rewrite (try_run_supported _ _ _ _ _ _ _ _ Htask Hcalls).
  unfold bind, lift, raise. repeat split.
  - intros d -> Hd. simpl. by rewrite Hd.
  - intros d v -> Hd Hv. simpl. rewrite Hd. simpl.
    destruct v; try done. by destruct (Hv s).
  - intros c -> Hc. simpl. destruct c; try done. by destruct (Hc d).
Qed.

(** The text of a returned artifact: it is empty exactly when the
    generated text is all whitespace (no error is raised for it); it is
    the generated text itself when that neither starts nor ends with
    whitespace; and stripping it again changes nothing. *)
Theorem artifact_text self ps st pps prompt response d text w' :
  task (client self) ∈ SUPPORTED_TASKS ->
  calls_return self ps (world st) pps prompt response (VList [VDict d]) w' ->
  d !! lit "generated_text" = Some (VStr text) ->
  exists a,
    (try_run self ps st).1 = Ok a
    /\ (value a = [] <-> forallb isspace text = true)
    /\ ((forall c, head text = Some c -> isspace c = false) ->
        (forall c, last text = Some c -> isspace c = false) ->
        value a = text)
    /\ strip (value a) = value a.
Proof.
  intros Htask Hcalls Hd. exists {| value := strip text |}.
  rewrite (try_run_supported _ _ _ _ _ _ _ _ Htask Hcalls).
  split; [apply choose_ok; eauto|]. simpl. split; [|split].
  - split; [apply strip_empty_inv|apply strip_whitespace].
  - apply strip_fixed.
  - apply strip_idem.
Qed.

(** The keys of the parameters the client is applied to are the two
    default keys and the keys of the driver's [params]; a driver without
    [params] applies it to the defaults and nothing else. *)
Theorem client_params_keys self ps st pps w1 prompt w2 :
  task (client self) ∈ SUPPORTED_TASKS ->
  before_run (pii_processor self) ps (world st) = (Ok pps, w1) ->
  prompt_stack_to_string self pps w1 = (Ok prompt, w2) ->
  exists submitted later,
    trace (try_run self ps st).2
    = trace st ++ [EvBeforeRun ps; EvPromptStackToString pps;
                   EvClient prompt submitted] ++ later
    /\ dom submitted
       = {[ lit "return_full_text"; lit "max_new_tokens" ]} ∪ dom (params self)
    /\ (params self = ∅ -> submitted = DEFAULT_PARAMS)
    /\ (forall e w3,
          client_call (client self) prompt submitted w2 = (Raise e, w3) ->
          try_run self ps st
          = (Raise e,
             {| trace := trace st
                         ++ [EvBeforeRun ps; EvPromptStackToString pps;
                             EvClient prompt submitted];
                world := w3 |}))
    /\ (forall response w3,
          client_call (client self) prompt submitted w2 = (Ok response, w3) ->
          later = [EvAfterRun response]
          /\ world (try_run self ps st).2
             = (after_run (pii_processor self) response w3).2).
Proof.
  intros Htask H1 H2.
  destruct (client_applied_to_run_params self ps st pps w1 prompt w2
              Htask H1 H2) as (later & Htrace & _ & Herr & Hok).
  exists (run_params self), later. split; [done|]. split; [|split].
  - unfold run_params, dict_or, DEFAULT_PARAMS.
    rewrite dom_union_L, dom_insert_L, dom_singleton_L. apply (comm_L (∪)).
  - intros Hp. unfold run_params, dict_or. rewrite Hp. apply (left_id_L ∅ _).
  - split; [exact Herr|exact Hok].
Qed.

(** *** Construction of the prompt driver *)

Section Construction.

Variable InferenceApi_new :
  pystr -> pystr -> bool -> W -> result (InferenceApi W) * W.
Variable HuggingFaceTokenizer_new : pystr -> Z -> W -> result Tokenizer * W.
Variable default_pii_processor : BasePromptStackProcessor W PromptStack.
Variable default_prompt_stack_to_string :
  PromptStack -> W -> result pystr * W.

Implicit Types kw : kwargs W PromptStack Tokenizer.

(** Without [api_token] or without [model] the constructor raises
    [TypeError] before it does anything: no factory is called. *)
Theorem init_missing_argument kw st :
  kw_api_token kw = None \/ kw_model kw = None ->
  __init__ InferenceApi_new HuggingFaceTokenizer_new default_pii_processor
    default_prompt_stack_to_string kw st = (Raise TypeError, st).
Proof.
  intros H. unfold __init__, bind, required, raise, ret.
  destruct (kw_api_token kw); [|done].
  destruct H as [H|H]; [done|]. by rewrite H.
Qed.

(** The validator runs after the fields are set: with [stream=True] and
    neither client nor tokenizer passed, [InferenceApi] and the tokenizer
    are built first, from the model, the token and [use_gpu], respectively
    the model and [MAX_NEW_TOKENS]; only then is [ValueError] raised. *)
Theorem init_validates_after_factories kw st token name c w1 t w2 :
  kw_stream kw = Some true ->
  kw_api_token kw = Some token -> kw_model kw = Some name ->
  kw_client kw = None -> kw_tokenizer kw = None ->
  InferenceApi_new name token (default false (kw_use_gpu kw)) (world st)
    = (Ok c, w1) ->
  HuggingFaceTokenizer_new name 250 w1 = (Ok t, w2) ->
  __init__ InferenceApi_new HuggingFaceTokenizer_new default_pii_processor
    default_prompt_stack_to_string kw st
  = (Raise (ValueError (lit "streaming is not supported")),
     {| trace := trace st
                 ++ [EvInferenceApiNew name token (default false (kw_use_gpu kw));
                     EvTokenizerNew name 250];
        world := w2 |}).
Proof.
  intros Hs Ha Hm Hc Ht Hnew Htok.
  unfold __init__, bind, required, call, raise, ret.
  rewrite Hs, Ha, Hm, Hc, Ht. simpl. rewrite Hnew. simpl.
  unfold MAX_NEW_TOKENS. rewrite Htok. simpl. by rewrite <- app_assoc.
Qed.

(** When the client has to be built and [InferenceApi] raises, the
    constructor raises that error, whatever [stream] is, and does not go on
    to build a tokenizer. *)
Theorem init_client_factory_error kw st token name e w :
  kw_api_token kw = Some token -> kw_model kw = Some name ->
  kw_client kw = None ->
  InferenceApi_new name token (default false (kw_use_gpu kw)) (world st)
    = (Raise e, w) ->
  __init__ InferenceApi_new HuggingFaceTokenizer_new default_pii_processor
    default_prompt_stack_to_string kw st
  = (Raise e,
     {| trace := trace st
                 ++ [EvInferenceApiNew name token
                       (default false (kw_use_gpu kw))];
        world := w |}).
Proof.
  intros Ha Hm Hc Hnew.
  unfold __init__, bind, required, call, raise, ret.
  rewrite Ha, Hm, Hc. simpl. by rewrite Hnew.
Qed.

(** A driver that the constructor returns: its [stream] is [False]; its
    token and model are the arguments; [use_gpu] and [params] default to
    [False] and to the empty dictionary; its client is the one passed or,
    when none is passed, the [InferenceApi] built for its own model, token
    and [use_gpu]. *)
Theorem init_returned_driver kw st self st' :
  __init__ InferenceApi_new HuggingFaceTokenizer_new default_pii_processor
    default_prompt_stack_to_string kw st = (Ok self, st') ->
  stream self = false
  /\ kw_api_token kw = Some (api_token self)
  /\ kw_model kw = Some (model self)
  /\ use_gpu self = default false (kw_use_gpu kw)
  /\ params self = default ∅ (kw_params kw)
  /\ (forall c, kw_client kw = Some c -> client self = c)
  /\ (kw_client kw = None ->
      exists w,
        InferenceApi_new (model self) (api_token self) (use_gpu self)
          (world st) = (Ok (client self), w)).
Proof.
  unfold __init__, bind, required, call, raise, ret.
  destruct (kw_api_token kw) as [token|]; [|done].
  destruct (kw_model kw) as [name|]; [|done].
  destruct (kw_client kw) as [c|]; simpl.
  all: try (destruct (InferenceApi_new _ _ _ _) as [[c|e] w1] eqn:Hnew;
            simpl; [|done]).
  all: destruct (kw_tokenizer kw) as [t|]; simpl.
  all: try (destruct (HuggingFaceTokenizer_new _ _ _) as [[t|e] w2];
            simpl; [|done]).
  all: destruct (kw_stream kw) as [[|]|]; simpl; try done.
  all: intros [= <- <-]; simpl; repeat split; eauto; (by intros ? [= ->]) || done.
Qed.

(** With the required arguments, a client and a tokenizer passed, and
    [stream] left out or [False], the constructor returns a driver and
    calls nothing outside. *)
Theorem init_without_stream kw st token name c t :
  kw_stream kw <> Some true ->
  kw_api_token kw = Some token -> kw_model kw = Some name ->
  kw_client kw = Some c -> kw_tokenizer kw = Some t ->
  exists self,
    __init__ InferenceApi_new HuggingFaceTokenizer_new default_pii_processor
    default_prompt_stack_to_string kw st = (Ok self, st)
    /\ client self = c /\ tokenizer self = t
    /\ pii_processor self = default default_pii_processor (kw_pii_processor kw).
Proof.
  intros Hs Ha Hm Hc Ht.
  unfold __init__, bind, required, call, raise, ret.
  rewrite Ha, Hm, Hc, Ht. simpl.
  destruct (kw_stream kw) as [[|]|]; [done|..]; simpl; eauto.
Qed.

End Construction.

End Spec.

(** *** On the processes of [Demo] *)

Local Abbreviation generation n := (Demo.hub_driver (lit "text-generation") n).
Local Abbreviation fill_mask := (Demo.hub_driver (lit "fill-mask") 1).
Local Abbreviation answer n := (VList (replicate n (Demo.choice (lit "hi")))).
Local Abbreviation too_many :=
  (Exception (lit "completion with more than one choice is not supported yet")).

Lemma generation_supported n : task (client (generation n)) ∈ SUPPORTED_TASKS.
Proof. right. left. Qed.


Lemma generation_calls_return n :
  calls_return (generation n) Demo.hello 0 Demo.hello (lit "hi")
    (answer n) (answer n) 3.
Proof. by apply (CallsReturn _ _ _ _ _ _ _ _ 1 1 2). Qed.



Lemma one_choice_returns_stripped_text_witness :
  (exists a,
     (try_run (generation 1) Demo.hello Demo.hub_state).1 = Ok a
     /\ value a = lit "hi")
  /\ (try_run (generation 2) Demo.hello Demo.hub_state).1 = Raise too_many.
Proof.
  split.
  - destruct (one_choice_returns_stripped_text (generation 1) Demo.hello
                Demo.hub_state _ _ _ _ _ (generation_supported 1)
                (generation_calls_return 1)) as [H _].
    destruct (H _ _ eq_refl eq_refl) as (a & Ha & Hv & _).
    exists a. split; [exact Ha|]. rewrite Hv. reflexivity.
  - destruct (one_choice_returns_stripped_text (generation 2) Demo.hello
                Demo.hub_state _ _ _ _ _ (generation_supported 2)
                (generation_calls_return 2)) as [_ H].
    apply (H _ eq_refl). simpl. lia.
Defined.

Lemma stream_fails_validation_witness :
  (exists e,
     (__init__ Demo.InferenceApi_new Demo.HuggingFaceTokenizer_new
        Demo.processor Demo.join_contents Demo.streaming_kwargs
        Demo.hub_state).1 = Raise e)
  /\ __init__ Demo.InferenceApi_new Demo.HuggingFaceTokenizer_new
       Demo.processor Demo.join_contents Demo.streaming_kwargs_full
       Demo.hub_state
     = (Raise (ValueError (lit "streaming is not supported")), Demo.hub_state).
Proof.
  split.
  - exact (proj1 (stream_fails_validation Demo.InferenceApi_new
                    Demo.HuggingFaceTokenizer_new Demo.processor
                    Demo.join_contents Demo.streaming_kwargs Demo.hub_state
                    eq_refl)).
  - apply (stream_fails_validation Demo.InferenceApi_new
             Demo.HuggingFaceTokenizer_new Demo.processor
             Demo.join_contents Demo.streaming_kwargs_full Demo.hub_state
             eq_refl); simpl; eauto.
Defined.

(** C6 as stated fails: on a supported task, a client that answers with
    two choices; all four calls are made and no artifact is returned. *)
Lemma two_choices_no_artifact :
  (task (client (generation 2)) ∈ SUPPORTED_TASKS)
  /\ calls_return (generation 2) Demo.hello (world Demo.hub_state)
       Demo.hello (lit "hi") (answer 2) (answer 2) 3
  /\ (try_run (generation 2) Demo.hello Demo.hub_state).1 = Raise too_many
  /\ ¬ exists a, (try_run (generation 2) Demo.hello Demo.hub_state).1 = Ok a.
Proof.
  split; [apply generation_supported|].
  split; [apply generation_calls_return|].
  split; [reflexivity|]. by intros [a Ha].
Qed.

Lemma try_run_pipeline_witness :
  trace (try_run (generation 1) Demo.hello Demo.hub_state).2
  = [EvBeforeRun Demo.hello; EvPromptStackToString Demo.hello;
     EvClient (lit "hi") (run_params (generation 1)); EvAfterRun (answer 1)]
  /\ (try_run (generation 1) Demo.hello Demo.hub_state).1
     = Ok {| value := lit "hi" |}
  /\ exists e, (try_run (generation 0) Demo.hello Demo.hub_state).1 = Raise e.
Proof.
  destruct (try_run_pipeline (generation 1) Demo.hello Demo.hub_state
              _ _ _ _ _ (generation_supported 1) (generation_calls_return 1))
    as (Hst & Hok & _).
  split; [by rewrite Hst|]. split.
  - rewrite (Hok _ _ eq_refl eq_refl). reflexivity.
  - destruct (try_run_pipeline (generation 0) Demo.hello Demo.hub_state
                _ _ _ _ _ (generation_supported 0) (generation_calls_return 0))
      as (_ & _ & Hraise).
    apply Hraise. intros c. discriminate.
Defined.

Lemma not_one_choice_raises_witness :
  (try_run (generation 0) Demo.hello Demo.hub_state).1 = Raise too_many
  /\ (exists c, answer 1 = VList [c])
  /\ exists e, (try_run (generation 3) Demo.hello Demo.hub_state).1 = Raise e.
Proof.
  split; [|split].
  - destruct (not_one_choice_raises (generation 0) Demo.hello Demo.hub_state
                _ _ _ _ _ (generation_supported 0) (generation_calls_return 0))
      as (H & _ & _).
    exact (H eq_refl).
  - destruct (not_one_choice_raises (generation 1) Demo.hello Demo.hub_state
                _ _ _ _ _ (generation_supported 1) (generation_calls_return 1))
      as (_ & H & _).
    exact (H {| value := lit "hi" |} eq_refl).
  - destruct (not_one_choice_raises (generation 3) Demo.hello Demo.hub_state
                _ _ _ _ _ (generation_supported 3) (generation_calls_return 3))
      as (_ & _ & H).
    apply H. intros c. discriminate.
Defined.

(** The driver of [Demo] overrides [max_new_tokens] and adds
    [temperature]. *)
Lemma client_params_merge_witness :
  exists submitted,
    trace (try_run (generation 1) Demo.hello Demo.hub_state).2
    = [EvBeforeRun Demo.hello; EvPromptStackToString Demo.hello;
       EvClient (lit "hi") submitted; EvAfterRun (answer 1)]
    /\ world (try_run (generation 1) Demo.hello Demo.hub_state).2 = 3
    /\ submitted !! lit "max_new_tokens" = Some (VInt 10)
    /\ submitted !! lit "return_full_text" = Some (VBool false)
    /\ submitted !! lit "temperature" = Some (VFloat 0).
Proof.
  destruct (client_params_merge (generation 1) Demo.hello Demo.hub_state
              Demo.hello 1 (lit "hi") 1 (generation_supported 1)
              eq_refl eq_refl)
    as (submitted & later & Htrace & _ & Hmerge & _ & _ & _ & _ & Hok).
  destruct (Hok (answer 1) 2 eq_refl) as [Hlater Hworld].
  exists submitted. rewrite Htrace, Hlater, Hworld.
  split; [reflexivity|]. split; [reflexivity|].
  rewrite !Hmerge. by vm_compute.
Defined.

(** *** The further properties on the processes of [Demo] *)

Local Abbreviation driver_of c p conv := (Demo.hub_driver_of c p conv ∅).
Local Abbreviation one_answer := (Demo.inference_client (lit "text-generation") 1).
Local Abbreviation answering r :=
  (driver_of (Demo.client_answering r) Demo.processor Demo.join_contents).

Lemma answering_supported r : task (client (answering r)) ∈ SUPPORTED_TASKS.
Proof. left. Qed.

Lemma answering_calls_return r :
  calls_return (answering r) Demo.hello 0 Demo.hello (lit "hi") r r 3.
Proof. by apply (CallsReturn _ _ _ _ _ _ _ _ 1 1 2). Qed.

Lemma pre_call_errors_propagate_witness :
  try_run (driver_of one_answer Demo.processor_before_fails Demo.join_contents)
    Demo.hello Demo.hub_state
  = (Raise Demo.throttled,
     {| trace := [EvBeforeRun Demo.hello]; world := 1 |})
  /\ try_run (driver_of one_answer Demo.processor Demo.converter_fails)
       Demo.hello Demo.hub_state
     = (Raise (ValueError (lit "empty prompt stack")),
        {| trace := [EvBeforeRun Demo.hello; EvPromptStackToString Demo.hello];
           world := 1 |}).
Proof.
  split.
  - apply (pre_call_errors_propagate
             (driver_of one_answer Demo.processor_before_fails
                Demo.join_contents) Demo.hello Demo.hub_state).
    reflexivity.
  - eapply (pre_call_errors_propagate
              (driver_of one_answer Demo.processor Demo.converter_fails)
              Demo.hello Demo.hub_state); reflexivity.
Defined.

Lemma call_errors_propagate_witness :
  (try_run (driver_of Demo.client_down Demo.processor Demo.join_contents)
     Demo.hello Demo.hub_state).1 = Raise Demo.connection_error
  /\ (try_run (driver_of one_answer Demo.processor_after_fails
                 Demo.join_contents) Demo.hello Demo.hub_state).1
     = Raise Demo.throttled.
Proof.
  split.
  - destruct (call_errors_propagate
                (driver_of Demo.client_down Demo.processor Demo.join_contents)
                Demo.hello Demo.hub_state Demo.hello 1 (lit "hi") 1)
      as [H _]; [right; left|reflexivity|reflexivity|].
    by rewrite (H Demo.connection_error 2 eq_refl).
  - destruct (call_errors_propagate
                (driver_of one_answer Demo.processor_after_fails
                   Demo.join_contents)
                Demo.hello Demo.hub_state Demo.hello 1 (lit "hi") 1)
      as [_ H]; [right; left|reflexivity|reflexivity|].
    by rewrite (H _ 2 Demo.throttled 3 eq_refl eq_refl).
Defined.

Lemma response_not_a_list_witness :
  (try_run (answering Demo.loading_payload) Demo.hello Demo.hub_state).1
  = Raise (KeyError (VInt 0))
  /\ (try_run (answering (VDict ∅)) Demo.hello Demo.hub_state).1
     = Raise too_many
  /\ (try_run (answering VNone) Demo.hello Demo.hub_state).1 = Raise TypeError.
Proof.
  split; [|split].
  - destruct (response_not_a_list (answering Demo.loading_payload) Demo.hello
                Demo.hub_state _ _ _ _ _
                (answering_supported _) (answering_calls_return _))
      as (H & _).
    apply (H _ eq_refl). reflexivity.
  - destruct (response_not_a_list (answering (VDict ∅)) Demo.hello
                Demo.hub_state _ _ _ _ _
                (answering_supported _) (answering_calls_return _))
      as (_ & H & _).
    apply (H _ eq_refl). vm_compute. discriminate.
  - destruct (response_not_a_list (answering VNone) Demo.hello
                Demo.hub_state _ _ _ _ _
                (answering_supported _) (answering_calls_return _))
      as (_ & _ & _ & H).
    apply H. by left.
Defined.

Lemma malformed_choice_witness :
  (try_run (answering (VList [Demo.loading_payload])) Demo.hello
     Demo.hub_state).1
  = Raise (KeyError (VStr (lit "generated_text")))
  /\ (try_run (answering (VList [VDict {[ lit "generated_text" := VNone ]}]))
        Demo.hello Demo.hub_state).1 = Raise AttributeError
  /\ (try_run (answering (VList [VStr (lit "hi")])) Demo.hello
        Demo.hub_state).1 = Raise TypeError.
Proof.
  split; [|split].
  - destruct (malformed_choice (answering (VList [Demo.loading_payload]))
                Demo.hello Demo.hub_state _ _ _ _ _
                (answering_supported _) (answering_calls_return _))
      as (H & _).
    apply (H _ eq_refl). reflexivity.
  - destruct (malformed_choice
                (answering (VList [VDict {[ lit "generated_text" := VNone ]}]))
                Demo.hello Demo.hub_state _ _ _ _ _
                (answering_supported _) (answering_calls_return _))
      as (_ & H & _).
    apply (H _ VNone eq_refl); [reflexivity|discriminate].
  - destruct (malformed_choice (answering (VList [VStr (lit "hi")]))
                Demo.hello Demo.hub_state _ _ _ _ _
                (answering_supported _) (answering_calls_return _))
      as (_ & _ & H).
    apply (H _ eq_refl). discriminate.
Defined.

Lemma artifact_text_witness :
  exists a,
    (try_run (answering (VList [VDict {[ lit "generated_text" := VStr [32; 10]%N ]}]))
       Demo.hello Demo.hub_state).1 = Ok a
    /\ value a = [].
Proof.
  destruct (artifact_text
              (answering (VList [VDict {[ lit "generated_text" := VStr [32; 10]%N ]}]))
              Demo.hello Demo.hub_state _ _ _ _ [32; 10]%N _
              (answering_supported _) (answering_calls_return _))
    as (a & Ha & Hempty & _); [reflexivity|].
  exists a. split; [exact Ha|]. by apply Hempty.
Defined.

Lemma client_params_keys_witness :
  exists submitted,
    trace (try_run (answering VNone) Demo.hello Demo.hub_state).2
    = [EvBeforeRun Demo.hello; EvPromptStackToString Demo.hello;
       EvClient (lit "hi") submitted; EvAfterRun VNone]
    /\ world (try_run (answering VNone) Demo.hello Demo.hub_state).2 = 3
    /\ submitted = DEFAULT_PARAMS.
Proof.
  destruct (client_params_keys (answering VNone) Demo.hello Demo.hub_state
              Demo.hello 1 (lit "hi") 1 (answering_supported _)
              eq_refl eq_refl)
    as (submitted & later & Htrace & _ & Hdefault & _ & Hok).
  destruct (Hok VNone 2 eq_refl) as [Hlater Hworld].
  exists submitted. rewrite Htrace, Hlater, Hworld.
  split; [reflexivity|]. split; [reflexivity|]. by apply Hdefault.
Defined.

Local Abbreviation demo_init new_client :=
  (__init__ new_client Demo.HuggingFaceTokenizer_new Demo.processor
     Demo.join_contents).

Lemma init_missing_argument_witness :
  demo_init Demo.InferenceApi_new Demo.no_token_kwargs Demo.hub_state
  = (Raise TypeError, Demo.hub_state).
Proof.
  apply (init_missing_argument Demo.InferenceApi_new
           Demo.HuggingFaceTokenizer_new Demo.processor Demo.join_contents
           Demo.no_token_kwargs Demo.hub_state).
  by left.
Defined.

Lemma init_validates_after_factories_witness :
  demo_init Demo.InferenceApi_new Demo.streaming_kwargs Demo.hub_state
  = (Raise (ValueError (lit "streaming is not supported")),
     {| trace := [EvInferenceApiNew (lit "gpt2") (lit "hf_token") false;
                  EvTokenizerNew (lit "gpt2") 250];
        world := 2 |}).
Proof.
  exact (init_validates_after_factories Demo.InferenceApi_new
           Demo.HuggingFaceTokenizer_new Demo.processor Demo.join_contents
           Demo.streaming_kwargs Demo.hub_state (lit "hf_token") (lit "gpt2")
           one_answer 1 tt 2 eq_refl eq_refl eq_refl eq_refl eq_refl
           eq_refl eq_refl).
Defined.

Lemma init_client_factory_error_witness :
  demo_init Demo.InferenceApi_new_failing Demo.plain_kwargs Demo.hub_state
  = (Raise Demo.model_not_found,
     {| trace := [EvInferenceApiNew (lit "gpt2") (lit "hf_token") true];
        world := 1 |}).
Proof.
  exact (init_client_factory_error Demo.InferenceApi_new_failing
           Demo.HuggingFaceTokenizer_new Demo.processor Demo.join_contents
           Demo.plain_kwargs Demo.hub_state (lit "hf_token") (lit "gpt2")
           Demo.model_not_found 1 eq_refl eq_refl eq_refl eq_refl).
Defined.

Lemma init_returned_driver_witness :
  exists self st',
    demo_init Demo.InferenceApi_new Demo.plain_kwargs Demo.hub_state
    = (Ok self, st')
    /\ stream self = false /\ use_gpu self = true /\ params self = ∅.
Proof.
  destruct (demo_init Demo.InferenceApi_new Demo.plain_kwargs Demo.hub_state)
    as [[self|e] st'] eqn:Hrun; [|discriminate Hrun].
  exists self, st'. split; [reflexivity|].
  destruct (init_returned_driver Demo.InferenceApi_new
              Demo.HuggingFaceTokenizer_new Demo.processor Demo.join_contents
              Demo.plain_kwargs Demo.hub_state self st' Hrun)
    as (Hs & _ & _ & Hg & Hp & _).
  by rewrite Hs, Hg, Hp.
Defined.

Lemma init_without_stream_witness :
  exists self,
    demo_init Demo.InferenceApi_new Demo.passed_kwargs Demo.hub_state
    = (Ok self, Demo.hub_state)
    /\ client self = Demo.client_down.
Proof.
  destruct (init_without_stream Demo.InferenceApi_new
              Demo.HuggingFaceTokenizer_new Demo.processor Demo.join_contents
              Demo.passed_kwargs Demo.hub_state (lit "hf_token") (lit "gpt2")
              Demo.client_down tt)
    as (self & Hrun & Hc & _); try reflexivity; [discriminate|].
  exists self. by split.
Defined.

End HuggingFaceHubSpec.

(** ** The primitives on small inputs *)

Module Checks.

Example strip_blanks : strip [32; 9; 97; 32; 98; 10; 160]%N = [97; 32; 98]%N.
Proof. reflexivity. Qed.

Example replace_non_overlapping :
  replace (lit "aXXbXXX") (lit "XX") (lit "-") = lit "a-b-X".
Proof. reflexivity. Qed.

Example replace_empty_pattern :
  replace (lit "abc") (lit "") (lit "-") = lit "-a-b-c-".
Proof. reflexivity. Qed.

Example endswith_legacy :
  endswith (lit "text-embedding-ada-001") (lit "001") = true
  /\ endswith OpenAiEmbedding.DEFAULT_MODEL (lit "001") = false
  /\ endswith (lit "01") (lit "001") = false.
Proof. done. Qed.

Example dict_or_right_wins :
  dict_or {[ lit "a" := VInt 1; lit "b" := VInt 2 ]}
          {[ lit "b" := VInt 3; lit "c" := VInt 4 ]}
  = {[ lit "a" := VInt 1; lit "b" := VInt 3; lit "c" := VInt 4 ]}.
Proof. by vm_compute. Qed.

Example negative_index :
  getitem_int (VList [VInt 1; VInt 2]) (-1) = Ok (VInt 2)
  /\ getitem_int (VList []) 0
     = Raise IndexError.
Proof. done. Qed.

End Checks.
